(** * The GNU Radio connector module: a shallow embedding of
      [wishful_module_gnuradio/module_gnuradio.py]

    The Python object [GnuRadioModule] is a record; every method is a
    function in a small state-and-exception monad over that record.  The
    processes, files, compiler and XML-RPC endpoint the module talks to are
    outside the program: files are a finite map from paths to contents, every
    call that leaves the program is appended to a trace, and what the outside
    answers is read from an environment [Env] of oracles. *)

From Stdlib Require Import ZArith List Ascii String.
From stdpp Require Import base option strings list gmap.

Open Scope string_scope.
Open Scope Z_scope.

(** ** Python values and exceptions *)

(** The values the framework hands to the module: [None], integers, strings
    and lists of strings (the command-line arguments).  On these Python's
    [==] is structural equality. *)
Inductive pyval :=
| PNone
| PInt (z : Z)
| PStr (s : string)
| PList (l : list string).

#[global] Instance pyval_eq_dec : EqDecision pyval.
Proof. solve_decision. Defined.

Inductive exn :=
| KeyError
| TypeError
| AttributeError
| IndexError
| XMLSyntaxError
| FileNotFoundError
| PermissionError
| ValueError
| OSError
| Fault.

#[global] Instance exn_eq_dec : EqDecision exn.
Proof. solve_decision. Defined.

(** ** The data of the module *)

Inductive RadioProgramState := INACTIVE | RUNNING | PAUSED | STOPPED.

#[global] Instance RadioProgramState_eq_dec : EqDecision RadioProgramState.
Proof. solve_decision. Defined.

Module RadioProgramConf.
Record t := mk {
  name : pyval;
  args : pyval;
  port : pyval;
  code : pyval;
  path : string
}.
End RadioProgramConf.

(** A file object as [open] returns it. *)
Record pyfile := { f_name : string; closed : bool }.

(** The dictionary [{'stdout': ..., 'stderr': ...}] held in [gr_process_io]. *)
Record process_io := { io_stdout : option pyfile; io_stderr : option pyfile }.

(** [xmlrpc.client.ServerProxy("http://host:port")]. *)
Record ServerProxy := { sp_host : string; sp_port : Z }.

Inductive loglevel := DEBUG | INFO | WARN | ERROR.

(** What the module does to the outside, in the order it does it. *)
Inductive event :=
| Spawn (h : nat) (argv : list string)
| Kill (h : nat)
| Run (argv : list string)
| Call (proxy : ServerProxy) (method : string) (params : list pyval).

Inductive rpc_reply := Reply (v : pyval) | Failure (e : exn).

(** The fields of [self] that the methods read or write, then the files and
    the trace of outside calls.  A log entry keeps the level and the fixed
    text of the message. *)
Record GnuRadioModule := mkModule {
  log : list (loglevel * string);
  gr_radio_programs_conf : gmap string RadioProgramConf.t;
  gr_exec_name : pyval;
  gr_state : RadioProgramState;
  gr_process : option nat;
  gr_process_io : option process_io;
  gr_radio_programs_path : string;
  ctrl_socket_host : string;
  default_socket_port : Z;
  ctrl_socket : option ServerProxy;
  fs : gmap string string;
  trace : list event
}.

Definition with_log (v : list (loglevel * string)) (s : GnuRadioModule) :=
  mkModule v (gr_radio_programs_conf s) (gr_exec_name s) (gr_state s)
    (gr_process s) (gr_process_io s) (gr_radio_programs_path s)
    (ctrl_socket_host s) (default_socket_port s) (ctrl_socket s) (fs s) (trace s).

Definition with_conf (v : gmap string RadioProgramConf.t) (s : GnuRadioModule) :=
  mkModule (log s) v (gr_exec_name s) (gr_state s)
    (gr_process s) (gr_process_io s) (gr_radio_programs_path s)
    (ctrl_socket_host s) (default_socket_port s) (ctrl_socket s) (fs s) (trace s).

Definition with_exec_name (v : pyval) (s : GnuRadioModule) :=
  mkModule (log s) (gr_radio_programs_conf s) v (gr_state s)
    (gr_process s) (gr_process_io s) (gr_radio_programs_path s)
    (ctrl_socket_host s) (default_socket_port s) (ctrl_socket s) (fs s) (trace s).

Definition with_state (v : RadioProgramState) (s : GnuRadioModule) :=
  mkModule (log s) (gr_radio_programs_conf s) (gr_exec_name s) v
    (gr_process s) (gr_process_io s) (gr_radio_programs_path s)
    (ctrl_socket_host s) (default_socket_port s) (ctrl_socket s) (fs s) (trace s).

Definition with_process (v : option nat) (s : GnuRadioModule) :=
  mkModule (log s) (gr_radio_programs_conf s) (gr_exec_name s) (gr_state s)
    v (gr_process_io s) (gr_radio_programs_path s)
    (ctrl_socket_host s) (default_socket_port s) (ctrl_socket s) (fs s) (trace s).

Definition with_process_io (v : option process_io) (s : GnuRadioModule) :=
  mkModule (log s) (gr_radio_programs_conf s) (gr_exec_name s) (gr_state s)
    (gr_process s) v (gr_radio_programs_path s)
    (ctrl_socket_host s) (default_socket_port s) (ctrl_socket s) (fs s) (trace s).

Definition with_ctrl_socket (v : option ServerProxy) (s : GnuRadioModule) :=
  mkModule (log s) (gr_radio_programs_conf s) (gr_exec_name s) (gr_state s)
    (gr_process s) (gr_process_io s) (gr_radio_programs_path s)
    (ctrl_socket_host s) (default_socket_port s) v (fs s) (trace s).

Definition with_fs (v : gmap string string) (s : GnuRadioModule) :=
  mkModule (log s) (gr_radio_programs_conf s) (gr_exec_name s) (gr_state s)
    (gr_process s) (gr_process_io s) (gr_radio_programs_path s)
    (ctrl_socket_host s) (default_socket_port s) (ctrl_socket s) v (trace s).

Definition with_trace (v : list event) (s : GnuRadioModule) :=
  mkModule (log s) (gr_radio_programs_conf s) (gr_exec_name s) (gr_state s)
    (gr_process s) (gr_process_io s) (gr_radio_programs_path s)
    (ctrl_socket_host s) (default_socket_port s) (ctrl_socket s) (fs s) v.

(** ** The monad: state of [self] and the world, with exceptions

    A raised exception carries the state at the point of the raise: what a
    method changed before it failed stays changed. *)
Inductive result (A : Type) :=
| Ok (a : A) (s : GnuRadioModule)
| Raised (e : exn) (s : GnuRadioModule).
Arguments Ok {A} a s.
Arguments Raised {A} e s.

Definition M (A : Type) := GnuRadioModule -> result A.

Definition ret {A} (a : A) : M A := fun s => Ok a s.
Definition raise {A} (e : exn) : M A := fun s => Raised e s.
Definition bind {A B} (m : M A) (k : A -> M B) : M B :=
  fun s => match m s with
           | Ok a s' => k a s'
           | Raised e s' => Raised e s'
           end.
Definition try_except {A} (m : M A) (h : exn -> M A) : M A :=
  fun s => match m s with
           | Ok a s' => Ok a s'
           | Raised e s' => h e s'
           end.
Definition get : M GnuRadioModule := fun s => Ok s s.
Definition modify (f : GnuRadioModule -> GnuRadioModule) : M unit :=
  fun s => Ok tt (f s).

Notation "x <- m ;; k" := (bind m (fun x => k))
  (at level 100, m at next level, right associativity).
Notation "m ;; k" := (bind m (fun _ => k))
  (at level 100, right associativity).

Definition final_state {A} (r : result A) : GnuRadioModule :=
  match r with Ok _ s => s | Raised _ s => s end.

Definition emit (e : event) : M unit :=
  modify (fun s => with_trace (trace s ++ [e]) s).

Definition log_msg (l : loglevel) (msg : string) : M unit :=
  modify (fun s => with_log (log s ++ [(l, msg)]) s).

(** ** Strings and paths *)

Definition endswith (s suffix : string) : bool :=
  let ls := rev (list_ascii_of_string s) in
  let lx := rev (list_ascii_of_string suffix) in
  bool_decide (take (length lx) ls = lx).

Definition startswith (s pre : string) : bool := String.prefix pre s.

(** [str.rfind] of one character: the last index, or -1. *)
Fixpoint rfind_from (c : ascii) (l : list ascii) (i : Z) (found : Z) : Z :=
  match l with
  | [] => found
  | x :: l' => rfind_from c l' (i + 1) (if decide (x = c) then i else found)
  end.
Definition rfind (c : ascii) (l : list ascii) : Z := rfind_from c l 0 (-1).

(** [os.path.splitext]: the extension starts at the last dot of the last
    path component, leading dots of that component not counting. *)
Definition splitext (p : string) : string * string :=
  let l := list_ascii_of_string p in
  let sepIndex := rfind "/"%char l in
  let dotIndex := rfind "."%char l in
  if bool_decide (dotIndex > sepIndex) then
    let between := take (Z.to_nat (dotIndex - (sepIndex + 1)))
                        (drop (Z.to_nat (sepIndex + 1)) l) in
    if forallb (fun x => bool_decide (x = "."%char)) between then (p, "")
    else (string_of_list_ascii (take (Z.to_nat dotIndex) l),
          string_of_list_ascii (drop (Z.to_nat dotIndex) l))
  else (p, "").

(** [os.path.join] of two components on a POSIX system. *)
Definition path_join (a b : string) : string :=
  if startswith b "/" then b
  else if bool_decide (a = "") || endswith a "/" then a ++ b
  else a ++ "/" ++ b.

(** [" ".join(l)]. *)
Fixpoint join (sep : string) (l : list string) : string :=
  match l with
  | [] => ""
  | [x] => x
  | x :: l' => x ++ sep ++ join sep l'
  end.

(** ** The outside world

    [lxml], the temporary-file module, the [grcc] compiler, the directories
    of the file system, the operating system's process creation and the
    XML-RPC endpoint are not part of the program.  Each is an oracle; the ones that can depend on what happened
    before take the trace so far. *)

(** An XML tree, as far as the module looks at it: the texts of the nodes
    [//block/param/key] and [//block/param/value] in document order. *)
Record xmldoc := {
  block_param_keys : list (option string);
  block_param_values : list (option string)
}.

Record Env := {
  (** [etree.fromstring]: [None] is an [XMLSyntaxError]. *)
  etree_fromstring : string -> option xmldoc;
  etree_tostring : xmldoc -> string;
  (** the name [tempfile.NamedTemporaryFile] picks, given the files there are *)
  NamedTemporaryFile : gmap string string -> string;
  (** [subprocess.check_call] of the compiler on the files there are: the
      files afterwards, or [None] when the call raises *)
  check_call : list string -> gmap string string -> option (gmap string string);
  (** [open(path, 'w')] on the files there are: the exception it raises
      when the path cannot be opened for writing (a directory of the path
      is missing, the path holds a NUL, permission is denied), or [None]
      when the file is opened *)
  open_w : gmap string string -> string -> option exn;
  (** does [subprocess.Popen] of this command line succeed *)
  Popen : list event -> list string -> bool;
  (** the answer to one XML-RPC request *)
  xmlrpc : list event -> ServerProxy -> string -> list pyval -> rpc_reply
}.

(** ** Dictionary and operator helpers with Python's failures *)

(** [name in self.gr_radio_programs_conf]: a list is unhashable; the keys
    stored are strings, so nothing else is found. *)
Definition conf_contains (k : pyval) : M bool :=
  fun s => match k with
           | PStr n => Ok (bool_decide (is_Some (gr_radio_programs_conf s !! n))) s
           | PList _ => Raised TypeError s
           | _ => Ok false s
           end.

(** [self.gr_radio_programs_conf[name]]. *)
Definition conf_getitem (k : pyval) : M RadioProgramConf.t :=
  fun s => match k with
           | PStr n => match gr_radio_programs_conf s !! n with
                       | Some c => Ok c s
                       | None => Raised KeyError s
                       end
           | PList _ => Raised TypeError s
           | _ => Raised KeyError s
           end.

(** [del self.gr_radio_programs_conf[name]]. *)
Definition conf_delitem (k : pyval) : M unit :=
  fun s => match k with
           | PStr n => match gr_radio_programs_conf s !! n with
                       | Some _ => Ok tt (with_conf (delete n (gr_radio_programs_conf s)) s)
                       | None => Raised KeyError s
                       end
           | PList _ => Raised TypeError s
           | _ => Raised KeyError s
           end.

(** [self.gr_radio_programs_conf[name] = c].  It is reached only with a
    string: the path was built from [name + ".py"] just before. *)
Definition conf_setitem (k : pyval) (c : RadioProgramConf.t) : M unit :=
  match k with
  | PStr n => modify (fun s => with_conf (<[n := c]> (gr_radio_programs_conf s)) s)
  | _ => raise TypeError
  end.

(** [a + b] with a string literal on one side. *)
Definition str_add_r (a : pyval) (b : string) : M string :=
  match a with PStr x => ret (x ++ b) | _ => raise TypeError end.
Definition str_add_l (a : string) (b : pyval) : M string :=
  match b with PStr x => ret (a ++ x) | _ => raise TypeError end.

(** [l + program_args] for a list [l]. *)
Definition list_add (l : list string) (b : pyval) : M (list string) :=
  match b with PList x => ret (l ++ x)%list | _ => raise TypeError end.

(** ["%d" % port]. *)
Definition fmt_d (p : pyval) : M Z :=
  match p with PInt z => ret z | _ => raise TypeError end.

(** [fid.write(code)] and [bytearray(code, encoding='utf-8')] need a string. *)
Definition as_str (v : pyval) : M string :=
  match v with PStr x => ret x | _ => raise TypeError end.

Section Methods.
Variable env : Env.

(** [self.gr_process.kill()]. *)
Definition kill (h : nat) : M unit := emit (Kill h).

(** One request through a proxy: it is on the trace whether or not it
    succeeds. *)
Definition rpc (proxy : ServerProxy) (method : string) (params : list pyval) : M pyval :=
  fun s =>
    let s' := with_trace (trace s ++ [Call proxy method params]) s in
    match xmlrpc env (trace s) proxy method params with
    | Reply v => Ok v s'
    | Failure e => Raised e s'
    end.

(** [getattr(self.ctrl_socket, m)(params)]: [None] has no attribute, a
    [ServerProxy] turns every attribute into a remote method. *)
Definition ctrl_socket_call (method : string) (params : list pyval) : M pyval :=
  s <- get ;;
  match ctrl_socket s with
  | None => raise AttributeError
  | Some proxy => rpc proxy method params
  end.

(** The two log files are opened under [/tmp], with fixed names that do not
    depend on the request: [/tmp] is taken to be writable, so these two
    opens succeed.  The handle of a new process is its position in the
    trace. *)
Definition _exec_program (grc_radio_program_name program_args : pyval) : M bool :=
  s <- get ;;
  (match gr_process_io s with
   | None =>
       modify (with_fs (<["/tmp/gnuradio-err.log" := ""]> (<["/tmp/gnuradio.log" := ""]> (fs s)))) ;;
       modify (with_process_io
                 (Some {| io_stdout := Some {| f_name := "/tmp/gnuradio.log"; closed := false |};
                          io_stderr := Some {| f_name := "/tmp/gnuradio-err.log"; closed := false |} |}))
   | Some _ => ret tt
   end) ;;
  (match gr_process s with
   | Some h => kill h ;; modify (with_process None)
   | None => ret tt
   end) ;;
  try_except
    (the_program <- conf_getitem grc_radio_program_name ;;
     _ <- str_add_l "Starting GNURADIO program " (RadioProgramConf.name the_program) ;;
     log_msg INFO "Starting GNURADIO program " ;;
     modify (with_exec_name grc_radio_program_name) ;;
     argv <- list_add ["env"; "python2"; RadioProgramConf.path the_program] program_args ;;
     log_msg INFO (join " " argv) ;;
     s1 <- get ;;
     (if Popen env (trace s1) argv
      then emit (Spawn (length (trace s1)) argv) ;;
           modify (with_process (Some (length (trace s1))))
      else raise OSError) ;;
     modify (with_state RUNNING) ;;
     log_msg INFO "GNURadio process %s started succesfully" ;;
     ret true)
    (fun _ =>
       log_msg ERROR "Failed to start GNURadio program %s" ;;
       modify (with_process_io None) ;;
       modify (with_process None) ;;
       modify (with_exec_name PNone) ;;
       ret false).

Definition os_remove (p : string) : M unit :=
  modify (fun s => with_fs (delete p (fs s)) s).

Definition isfile (p : string) : M bool :=
  fun s => Ok (bool_decide (is_Some (fs s !! p))) s.

Definition _remove_program (grc_radio_program_name : pyval) : M unit :=
  registered <- conf_contains grc_radio_program_name ;;
  (if negb registered
   then log_msg INFO "Could not remove program '%s': not registered"
   else ret tt) ;;
  the_program <- conf_getitem grc_radio_program_name ;;
  there <- isfile (RadioProgramConf.path the_program) ;;
  (if there then os_remove (RadioProgramConf.path the_program) else ret tt) ;;
  (if endswith (RadioProgramConf.path the_program) "grc"
   then let pyfile := (splitext (RadioProgramConf.path the_program)).1 ++ ".py" in
        there' <- isfile pyfile ;;
        if there' then os_remove pyfile else ret tt
   else ret tt) ;;
  conf_delitem grc_radio_program_name.

(** [self.gr_process_io is dict] compares the object with the class
    [dict] itself: no dictionary is the class. *)
Definition is_the_class_dict (io : process_io) : bool := false.

(** The body of the loop over the keys: an open file is closed and its
    entry replaced by [None]. *)
Definition close_entry (f : option pyfile) : M (option pyfile) :=
  match f with
  | None => raise AttributeError
  | Some f' => if negb (closed f') then ret None else ret (Some f')
  end.

(** A held handle is a [Popen] object, so [hasattr(self.gr_process, "kill")]
    is true. *)
Definition _close_gr_process : M unit :=
  s <- get ;;
  (match gr_process s with
   | Some h => kill h
   | None => ret tt
   end) ;;
  (match gr_process_io s with
   | Some io =>
       if is_the_class_dict io then
         out <- close_entry (io_stdout io) ;;
         err <- close_entry (io_stderr io) ;;
         modify (with_process_io (Some {| io_stdout := out; io_stderr := err |}))
       else ret tt
   | None => ret tt
   end) ;;
  modify (with_ctrl_socket None).

Definition _convert_grc_to_python (grc_radio_program_name grc_radio_program_code : pyval)
  : M pyval :=
  text <- as_str grc_radio_program_code ;;
  xmltext <- match etree_fromstring env text with
             | Some d => ret d
             | None => raise XMLSyntaxError
             end ;;
  key0 <- match block_param_keys xmltext with
          | k :: _ => ret k
          | [] => raise IndexError
          end ;;
  xmltext <- (if decide (key0 = Some "id") then
                match block_param_values xmltext with
                | [] => raise IndexError
                | _ :: vs =>
                    match grc_radio_program_name with
                    | PStr n => ret {| block_param_keys := block_param_keys xmltext;
                                       block_param_values := Some n :: vs |}
                    | PNone => ret {| block_param_keys := block_param_keys xmltext;
                                      block_param_values := None :: vs |}
                    | _ => raise TypeError
                    end
                end
              else ret xmltext) ;;
  s <- get ;;
  let tmpfile := NamedTemporaryFile env (fs s) in
  modify (with_fs (<[tmpfile := etree_tostring env xmltext]> (fs s))) ;;
  base <- str_add_r grc_radio_program_name ".py" ;;
  let py_filename := path_join (gr_radio_programs_path s) base in
  log_msg INFO "grcc --directory=" ;;
  try_except
    (log_msg INFO "grcc --directory=" ;;
     s1 <- get ;;
     let argv := ["grcc"; "--directory=" ++ gr_radio_programs_path s; tmpfile] in
     emit (Run argv) ;;
     match check_call env argv (fs s1) with
     | Some fs' => modify (with_fs fs')
     | None => raise OSError
     end)
    (fun _ => log_msg INFO "could not execute grcc compiler") ;;
  s2 <- get ;;
  match fs s2 !! py_filename with
  | None => raise FileNotFoundError
  | Some content =>
      os_remove py_filename ;;
      ret (PStr content)
  end.

Definition get_running_radio_program : M pyval :=
  s <- get ;;
  if decide (gr_state s = RUNNING) then ret (gr_exec_name s) else ret PNone.

(** The body starts with [return]: nothing after it runs. *)
Definition _build_radio_program_dict : M unit := ret tt.

(** The path comes from the name of the request, so [open(path, 'w')] can
    fail: the exception leaves the method before anything is written.  Once
    the file is open it is empty, and stays so when the write raises. *)
Definition _add_program_to_repo (grc_radio_program_name grc_radio_program_code : pyval)
  : M string :=
  log_msg INFO "Add radio program %s to local repository" ;;
  s <- get ;;
  base <- str_add_r grc_radio_program_name ".py" ;;
  let path := path_join (gr_radio_programs_path s) base in
  match open_w env (fs s) path with
  | Some e => raise e
  | None => modify (with_fs (<[path := ""]> (fs s)))
  end ;;
  text <- as_str grc_radio_program_code ;;
  modify (with_fs (<[path := text]> (fs s))) ;;
  _build_radio_program_dict ;;
  ret path.

Definition _init_proxy (program_name : pyval) : M unit :=
  s <- get ;;
  match ctrl_socket s with
  | Some _ => log_msg INFO "Already connected to a GNURadio process"
  | None =>
      try_except
        (c <- conf_getitem program_name ;;
         port <- fmt_d (RadioProgramConf.port c) ;;
         modify (with_ctrl_socket (Some {| sp_host := ctrl_socket_host s; sp_port := port |})) ;;
         log_msg INFO "Connected to GNURadio process")
        (fun _ => log_msg ERROR "Error connecting to GNURadio process -> %s")
  end.

(** [args[k] if k in args else d]. *)
Definition arg_or (args : gmap string pyval) (k : string) (d : pyval) : pyval :=
  match args !! k with Some v => v | None => d end.

Definition set_active (args : gmap string pyval) : M (option bool) :=
  s <- get ;;
  let program_name := arg_or args "program_name" PNone in
  let program_code := arg_or args "program_code" PNone in
  let program_args := arg_or args "program_args" (PList [""]) in
  let program_type := arg_or args "program_type" (PStr "grc") in
  let program_port := arg_or args "program_port" (PInt (default_socket_port s)) in
  if decide (gr_state s = INACTIVE) then
    log_msg INFO "Start new radio program" ;;
    converted <-
      (if decide (program_type = PStr "grc") then
         c <- _convert_grc_to_python program_name program_code ;; ret (Some c)
       else if decide (program_type <> PStr "py") then
         log_msg ERROR "program_type must be either 'grc' or 'py' -> received %s" ;;
         ret None
       else ret (Some program_code)) ;;
    match converted with
    | None => ret None
    | Some program_code =>
        registered <- conf_contains program_name ;;
        (if negb registered then
           path <- _add_program_to_repo program_name program_code ;;
           conf_setitem program_name
             (RadioProgramConf.mk program_name program_args program_port program_code path)
         else ret tt) ;;
        started <- _exec_program program_name program_args ;;
        ret (Some started)
    end
  else if decide (gr_state s = PAUSED /\ gr_exec_name s = program_name) then
    log_msg INFO "Wakeup radio program" ;;
    _init_proxy (gr_exec_name s) ;;
    modify (with_state RUNNING) ;;
    ret None
  else
    log_msg WARN "Please deactive old radio program before activating a new one." ;;
    ret None.

Definition set_inactive (radio_program_name : pyval) (pause : bool) : M unit :=
  s <- get ;;
  if decide (radio_program_name <> gr_exec_name s) then
    log_msg INFO "Program {} is not running. Running program is {}"
  else if decide (gr_state s = RUNNING \/ gr_state s = PAUSED) then
    if pause then
      log_msg INFO "Pausing radio program" ;;
      ctrl_socket_call "stop" [] ;;
      ctrl_socket_call "wait" [] ;;
      modify (with_state PAUSED)
    else
      log_msg INFO "Stopping radio program" ;;
      modify (with_state INACTIVE) ;;
      _close_gr_process ;;
      _remove_program radio_program_name
  else
    log_msg WARN "no running or paused radio program; ignore command".

(** [for x in l: body(x)]. *)
Fixpoint for_each {A} (l : list A) (body : A -> M unit) : M unit :=
  match l with
  | [] => ret tt
  | x :: l' => body x ;; for_each l' body
  end.

(** The dictionary argument is the list of its items in iteration order. *)
Definition gnuradio_set_vars (param_key_values_dict : list (string * pyval)) : M unit :=
  s <- get ;;
  if decide (gr_state s = RUNNING \/ gr_state s = PAUSED) then
    _init_proxy (gr_exec_name s) ;;
    for_each param_key_values_dict
      (fun kv =>
         try_except
           (ctrl_socket_call ("set_" ++ kv.1) [kv.2] ;; ret tt)
           (fun _ => log_msg ERROR "Unknown variable '%s -> %s'"))
  else
    log_msg WARN "no running or paused radio program; ignore command".

(** The loop of [gnuradio_get_vars], with the local dictionary [rv]
    threaded through it. *)
Fixpoint get_vars_loop (keys : list string) (rv : gmap string pyval)
  : M (gmap string pyval) :=
  match keys with
  | [] => ret rv
  | k :: keys' =>
      rv' <- try_except
               (log_msg INFO "Probing for variable '%s'" ;;
                v <- ctrl_socket_call ("get_" ++ k) [] ;;
                ret (<[k := v]> rv))
               (fun _ => log_msg ERROR "Unknown variable '%s -> %s'" ;; ret rv) ;;
      get_vars_loop keys' rv'
  end.

Definition gnuradio_get_vars (param_key_list : list string)
  : M (option (gmap string pyval)) :=
  s <- get ;;
  if decide (gr_state s = RUNNING \/ gr_state s = PAUSED) then
    _init_proxy (gr_exec_name s) ;;
    rv <- get_vars_loop param_key_list ∅ ;;
    log_msg INFO "Returning: " ;;
    ret (Some rv)
  else
    log_msg WARN "no running or paused radio program; ignore command" ;;
    ret None.

End Methods.

(** [GnuRadioModule.__init__], for a home directory and the files there are.
    Directories are not modelled: the repository directory is there once
    the object is made, and which paths can be opened is for [open_w] to
    say. *)
Definition init (home : string) (files : gmap string string) : GnuRadioModule :=
  {| log := [(DEBUG, "initialized ...")];
     gr_radio_programs_conf := ∅;
     gr_exec_name := PNone;
     gr_state := INACTIVE;
     gr_process := None;
     gr_process_io := None;
     gr_radio_programs_path := path_join (path_join home ".wishful") "radio";
     ctrl_socket_host := "localhost";
     default_socket_port := 1235;
     ctrl_socket := None;
     fs := files;
     trace := [] |}.

(** ** The public operations and the states they can reach *)

Inductive op :=
| Activate (args : gmap string pyval)
| Deactivate (radio_program_name : pyval) (pause : bool)
| SetParameters (param_key_values_dict : list (string * pyval))
| GetParameters (param_key_list : list string)
| QueryActive.

(** What a public operation hands back: a Python value ([None] included),
    a boolean, or the dictionary of [gnuradio_get_vars]. *)
Inductive retval :=
| RVal (v : pyval)
| RBool (b : bool)
| RDict (d : gmap string pyval).

Definition run (env : Env) (o : op) : M retval :=
  match o with
  | Activate args =>
      r <- set_active env args ;;
      ret (match r with Some b => RBool b | None => RVal PNone end)
  | Deactivate n p => set_inactive env n p ;; ret (RVal PNone)
  | SetParameters kvs => gnuradio_set_vars env kvs ;; ret (RVal PNone)
  | GetParameters ks =>
      r <- gnuradio_get_vars env ks ;;
      ret (match r with Some d => RDict d | None => RVal PNone end)
  | QueryActive => v <- get_running_radio_program ;; ret (RVal v)
  end.

(** The object after an operation, whether it returned or raised: the
    caller keeps the same object either way. *)
Definition after (env : Env) (o : op) (s : GnuRadioModule) : GnuRadioModule :=
  final_state (run env o s).

Inductive reachable (env : Env) : GnuRadioModule -> Prop :=
| reachable_init home files : reachable env (init home files)
| reachable_step s o : reachable env s -> reachable env (after env o s).

(** ** A concrete outside world, to run the model on

    Every flowgraph parses, unless it is the text ["<broken"], to a document
    whose first parameter is the [id]; the compiler is not installed; a file
    can be opened for writing unless it is [nodir/fm.py] in the repository,
    whose directory [nodir] does not exist; every process starts; the endpoint knows the variable [freq] and the methods
    [stop] and [wait]. *)
Definition demo_env : Env :=
  {| etree_fromstring := fun text =>
       if decide (text = "<broken") then None
       else Some {| block_param_keys := [Some "id"];
                    block_param_values := [Some "top_block"] |};
     etree_tostring := fun _ => "<flow_graph/>";
     NamedTemporaryFile := fun _ => "/tmp/tmpgrc0";
     check_call := fun _ _ => None;
     open_w := fun _ p =>
       if bool_decide (p = "/home/u/.wishful/radio/nodir/fm.py")
       then Some FileNotFoundError else None;
     Popen := fun _ _ => true;
     xmlrpc := fun _ _ method _ =>
       if decide (method = "set_freq") then Reply PNone
       else if decide (method = "get_freq") then Reply (PInt 100)
       else if decide (method = "stop") then Reply PNone
       else if decide (method = "wait") then Reply PNone
       else Failure Fault |}.

Definition demo_init : GnuRadioModule := init "/home/u" ∅.

(** [{'program_name': 'fm', 'program_code': 'print(1)', 'program_type': 'py'}] *)
Definition demo_args : gmap string pyval :=
  <["program_name" := PStr "fm"]>
    (<["program_code" := PStr "print(1)"]>
       (<["program_type" := PStr "py"]> ∅)).

(** The module after [fm] has been activated. *)
Definition demo_running : GnuRadioModule := after demo_env (Activate demo_args) demo_init.

(** The state with one more log entry. *)
Definition logged (l : loglevel) (msg : string) (s : GnuRadioModule) : GnuRadioModule :=
  with_log (log s ++ [(l, msg)]) s.

(** The requests the state forbids. *)
Inductive forbidden (s : GnuRadioModule) : op -> Prop :=
| forbidden_activate_running args :
    gr_state s = RUNNING -> forbidden s (Activate args)
| forbidden_activate_other args :
    gr_state s = PAUSED ->
    arg_or args "program_name" PNone <> gr_exec_name s ->
    forbidden s (Activate args)
| forbidden_deactivate_foreign n p :
    n <> gr_exec_name s -> forbidden s (Deactivate n p)
| forbidden_deactivate_inactive n p :
    gr_state s = INACTIVE -> forbidden s (Deactivate n p)
| forbidden_set_inactive kvs :
    gr_state s = INACTIVE -> forbidden s (SetParameters kvs)
| forbidden_get_inactive ks :
    gr_state s = INACTIVE -> forbidden s (GetParameters ks).

(** ** What the statements below are about *)

(** The fields of the object itself: everything but the log, the files and
    the trace. *)
Definition session (s : GnuRadioModule) :=
  (gr_radio_programs_conf s, gr_exec_name s, gr_state s, gr_process s,
   gr_process_io s, gr_radio_programs_path s, ctrl_socket_host s,
   default_socket_port s, ctrl_socket s).

(** What holds of the object after any sequence of public operations. *)
Definition session_inv (s : GnuRadioModule) : Prop :=
  default_socket_port s = 1235 /\
  gr_state s <> STOPPED /\
  (gr_state s = INACTIVE -> ctrl_socket s = None) /\
  (gr_state s = RUNNING \/ gr_state s = PAUSED ->
   exists n, gr_exec_name s = PStr n /\
             is_Some (gr_radio_programs_conf s !! n) /\
             is_Some (gr_process s)).

(** The requests of the two parameter batches. *)
Definition set_call (proxy : ServerProxy) (kv : string * pyval) : event :=
  Call proxy ("set_" ++ kv.1) [kv.2].
Definition get_call (proxy : ServerProxy) (k : string) : event :=
  Call proxy ("get_" ++ k) [].

(** The reply to the [i]-th request of a batch of reads that starts after
    the trace [tr]. *)
Definition get_reply (env : Env) (proxy : ServerProxy) (tr : list event)
    (ks : list string) (i : nat) : option rpc_reply :=
  match ks !! i with
  | Some k => Some (xmlrpc env (tr ++ map (get_call proxy) (take i ks)) proxy ("get_" ++ k) [])
  | None => None
  end.

(** The body of the loop of [gnuradio_set_vars]. *)
Definition set_vars_body (env : Env) (kv : string * pyval) : M unit :=
  try_except
    (ctrl_socket_call env ("set_" ++ kv.1) [kv.2] ;; ret tt)
    (fun _ => log_msg ERROR "Unknown variable '%s -> %s'").

(** The dictionary a batch of reads builds, as a function of the replies. *)
Fixpoint collect (env : Env) (proxy : ServerProxy) (tr : list event)
    (ks : list string) (rv : gmap string pyval) : gmap string pyval :=
  match ks with
  | [] => rv
  | k :: ks' =>
      collect env proxy (tr ++ [get_call proxy k]) ks'
        (match xmlrpc env tr proxy ("get_" ++ k) [] with
         | Reply v => <[k := v]> rv
         | Failure _ => rv
         end)
  end.

(** A batch leaves these alone, whatever the endpoint answers. *)
Definition batch_frame (s s' : GnuRadioModule) : Prop :=
  gr_state s' = gr_state s /\
  gr_exec_name s' = gr_exec_name s /\
  gr_radio_programs_conf s' = gr_radio_programs_conf s /\
  gr_process s' = gr_process s /\
  gr_process_io s' = gr_process_io s /\
  fs s' = fs s /\
  (forall p, ctrl_socket s = Some p -> ctrl_socket s' = Some p).

(** The reading of the compile-failure contract that the code does not
    meet: a conversion that fails is turned into a returned outcome. *)
Definition compile_failure_is_returned (env : Env) (args : gmap string pyval)
    (s : GnuRadioModule) : Prop :=
  gr_state s = INACTIVE ->
  arg_or args "program_type" (PStr "grc") = PStr "grc" ->
  (exists e s1,
      _convert_grc_to_python env (arg_or args "program_name" PNone)
        (arg_or args "program_code" PNone)
        (logged INFO "Start new radio program" s) = Raised e s1) ->
  exists r s', set_active env args s = Ok r s' /\ gr_state s' = INACTIVE.

(** [{'program_name': 'fm', 'program_code': '<broken'}]: a flowgraph that
    does not parse; the type defaults to [grc]. *)
Definition demo_broken_args : gmap string pyval :=
  <["program_name" := PStr "fm"]> (<["program_code" := PStr "<broken"]> ∅).

(** [{'program_name': 'fm', 'program_code': '<flow_graph/>'}]: it parses,
    and the compiler of [demo_env] produces nothing. *)
Definition demo_grc_args : gmap string pyval :=
  <["program_name" := PStr "fm"]> (<["program_code" := PStr "<flow_graph/>"]> ∅).

(** [fm] running, after a first batch of reads has created the control
    channel. *)
Definition demo_connected : GnuRadioModule :=
  after demo_env (GetParameters ["freq"]) demo_running.

(** ** Further statements about the object *)

(** Every registration sits under its own name, and its path is
    [os.path.join] of the repository directory and [<name>.py]. *)
Definition registry_wf (s : GnuRadioModule) : Prop :=
  forall n c,
    gr_radio_programs_conf s !! n = Some c ->
    RadioProgramConf.name c = PStr n /\
    RadioProgramConf.path c = path_join (gr_radio_programs_path s) (n ++ ".py").

(** A control channel, when there is one, points at the registered port of
    the active program on the local host. *)
Definition channel_bound (s : GnuRadioModule) : Prop :=
  forall p,
    ctrl_socket s = Some p ->
    exists n c,
      gr_exec_name s = PStr n /\
      gr_radio_programs_conf s !! n = Some c /\
      RadioProgramConf.port c = PInt (sp_port p) /\
      sp_host p = "localhost".

Definition registry_inv (s : GnuRadioModule) : Prop :=
  ctrl_socket_host s = "localhost" /\ registry_wf s /\ channel_bound s.

(** What one public operation can do to the registrations and the channel:
    either both are kept, but for a channel newly made for the active
    program, or there is no channel afterwards and the registrations are
    the same, one fewer, or one more, well formed. *)
Definition step_ok (s s' : GnuRadioModule) : Prop :=
  gr_radio_programs_path s' = gr_radio_programs_path s /\
  ctrl_socket_host s' = ctrl_socket_host s /\
  ((gr_radio_programs_conf s' = gr_radio_programs_conf s /\
    gr_exec_name s' = gr_exec_name s /\
    (ctrl_socket s' = ctrl_socket s \/
     exists p n c,
       ctrl_socket s' = Some p /\ gr_exec_name s = PStr n /\
       gr_radio_programs_conf s !! n = Some c /\
       RadioProgramConf.port c = PInt (sp_port p) /\
       sp_host p = ctrl_socket_host s)) \/
   (ctrl_socket s' = None /\
    (gr_radio_programs_conf s' = gr_radio_programs_conf s \/
     (exists n, gr_radio_programs_conf s' = delete n (gr_radio_programs_conf s)) \/
     (exists n c,
        RadioProgramConf.name c = PStr n /\
        RadioProgramConf.path c = path_join (gr_radio_programs_path s) (n ++ ".py") /\
        gr_radio_programs_conf s' = <[n := c]> (gr_radio_programs_conf s))))).

(** ** Comparing and hashing registrations *)

Module RadioProgramConfMethods.

(** The argument [other] of [__eq__]: a registration or any other value. *)
Inductive other := IsConf (c : RadioProgramConf.t) | NotConf (v : pyval).

Definition __eq__ (self : RadioProgramConf.t) (o : other) : bool :=
  match o with
  | NotConf _ => false
  | IsConf c =>
      if decide (RadioProgramConf.name self = RadioProgramConf.name c) then true else false
  end.

Definition __hash__ (self : RadioProgramConf.t) : pyval := RadioProgramConf.name self.

(** The built-in [hash(self)]: Python accepts only an integer from
    [__hash__]; [None] here means that no exception is raised. *)
Definition hash_raises (self : RadioProgramConf.t) : option exn :=
  match __hash__ self with
  | PInt _ => None
  | _ => Some TypeError
  end.

End RadioProgramConfMethods.

(** ** What the compiler is run on *)

(** The flowgraph as [_convert_grc_to_python] writes it to the temporary
    file: when the first parameter key is [id], the first parameter value
    is the name of the program. *)
Definition renamed (doc : xmldoc) (n : string) : xmldoc :=
  if decide (head (block_param_keys doc) = Some (Some "id"))
  then {| block_param_keys := block_param_keys doc;
          block_param_values := Some n :: tail (block_param_values doc) |}
  else doc.


(** ** More concrete objects *)

(** A new object in a home where an earlier compilation left its output. *)
Definition demo_stale_init : GnuRadioModule :=
  init "/home/u" {[ "/home/u/.wishful/radio/fm.py" := "print('old')" ]}.

(** A world where no process can be started. *)
Definition demo_env_no_start : Env :=
  {| etree_fromstring := etree_fromstring demo_env;
     etree_tostring := etree_tostring demo_env;
     NamedTemporaryFile := NamedTemporaryFile demo_env;
     check_call := check_call demo_env;
     open_w := open_w demo_env;
     Popen := fun _ _ => false;
     xmlrpc := xmlrpc demo_env |}.

(** [fm] registered, and [INACTIVE] because its process could not be
    started. *)
Definition demo_failed_start : GnuRadioModule :=
  after demo_env_no_start (Activate demo_args) demo_init.

(** [fm] activated and then stopped: the object is [INACTIVE] and still
    holds the streams it opened. *)
Definition demo_stopped : GnuRadioModule :=
  after demo_env (Deactivate (PStr "fm") false) demo_running.

(** [fm] paused. *)
Definition demo_paused : GnuRadioModule :=
  after demo_env (Deactivate (PStr "fm") true) demo_connected.

(** A world with a compiler: it writes [fm.py]; a process can be started
    once two outside calls have been made. *)
Definition demo_env_grcc : Env :=
  {| etree_fromstring := etree_fromstring demo_env;
     etree_tostring := etree_tostring demo_env;
     NamedTemporaryFile := NamedTemporaryFile demo_env;
     check_call := fun _ files =>
       Some (<["/home/u/.wishful/radio/fm.py" := "print('generated')"]> files);
     open_w := open_w demo_env;
     Popen := fun tr _ => bool_decide (1 < length tr)%nat;
     xmlrpc := xmlrpc demo_env |}.

(** [fm] compiled and registered, and [INACTIVE] because the first start
    failed. *)
Definition demo_grc_registered : GnuRadioModule :=
  after demo_env_grcc (Activate demo_grc_args) demo_init.

(** ** Reasoning about the monad *)

Ltac unfold_monad :=
  unfold emit, log_msg in *;
  unfold bind, ret, raise, try_except, get, modify in *.

(** Reduce the projections of updated records, and nothing else: maps with
    concrete string keys stay folded. *)
Ltac fields :=
  cbn [log gr_radio_programs_conf gr_exec_name gr_state gr_process gr_process_io
       gr_radio_programs_path ctrl_socket_host default_socket_port ctrl_socket fs trace
       with_log with_conf with_exec_name with_state with_process with_process_io
       with_ctrl_socket with_fs with_trace logged final_state] in *.

(** Case analysis on a scrutinee that contains no further [match]. *)
Ltac destruct_inner :=
  match goal with
  | |- context [match ?x with _ => _ end] =>
      lazymatch x with
      | context [match _ with _ => _ end] => fail
      | _ => destruct x eqn:?
      end
  end.

Ltac unfold_helpers :=
  unfold ctrl_socket_call in *;
  unfold conf_contains, conf_getitem, conf_delitem, conf_setitem, str_add_r, str_add_l,
    list_add, fmt_d, as_str, kill, rpc, os_remove, isfile in *;
  unfold_monad.

Ltac crunch := repeat (destruct_inner; fields); fields.

Example splitext_py : splitext "/home/u/.wishful/radio/fm.py" = ("/home/u/.wishful/radio/fm", ".py").
Proof. reflexivity. Qed.
Example splitext_hidden : splitext "/home/u/.bashrc" = ("/home/u/.bashrc", "").
Proof. reflexivity. Qed.
Example path_join_abs : path_join "/home/u" "/etc/x.py" = "/etc/x.py".
Proof. reflexivity. Qed.
Example endswith_grc : endswith "a/b.grc" "grc" = true /\ endswith "a/b.py" "grc" = false.
Proof. split; reflexivity. Qed.



(** ** What each method leaves alone *)

Lemma session_fields (a b : GnuRadioModule) :
  session a = session b ->
  gr_radio_programs_conf a = gr_radio_programs_conf b /\
  gr_exec_name a = gr_exec_name b /\
  gr_state a = gr_state b /\
  gr_process a = gr_process b /\
  gr_process_io a = gr_process_io b /\
  gr_radio_programs_path a = gr_radio_programs_path b /\
  ctrl_socket_host a = ctrl_socket_host b /\
  default_socket_port a = default_socket_port b /\
  ctrl_socket a = ctrl_socket b.
Proof. unfold session. intros H. by simplify_eq. Qed.

Lemma session_inv_frame s s' :
  session s' = session s -> session_inv s -> session_inv s'.
Proof.
  intros H. apply session_fields in H.
  destruct H as (H1 & H2 & H3 & H4 & H5 & H6 & H7 & H8 & H9).
  unfold session_inv. by rewrite H1, H2, H3, H4, H8, H9.
Qed.

Lemma convert_frame env n c s r :
  _convert_grc_to_python env n c s = r -> session (final_state r) = session s.
Proof.
  intros <-. unfold _convert_grc_to_python. unfold_helpers. unfold session.
  crunch; congruence.
Qed.

(** The conversion does nothing outside but run the compiler, at most once. *)
Lemma convert_trace env n c s :
  let s' := final_state (_convert_grc_to_python env n c s) in
  trace s' = trace s \/ exists argv, trace s' = (trace s ++ [Run argv])%list.
Proof.
  unfold _convert_grc_to_python. unfold_helpers.
  crunch; first [by left | right; by eexists].
Qed.

Lemma add_program_frame env n c s r :
  _add_program_to_repo env n c s = r -> session (final_state r) = session s.
Proof.
  intros <-. unfold _add_program_to_repo, _build_radio_program_dict. unfold_helpers. unfold session.
  crunch; congruence.
Qed.

Lemma init_proxy_frame n s :
  exists l msg u, _init_proxy n s = Ok tt (logged l msg (with_ctrl_socket u s)) /\
    (forall p, ctrl_socket s = Some p -> u = Some p) /\
    (forall p, u = Some p ->
       ctrl_socket s = Some p \/
       exists nm c, n = PStr nm /\ gr_radio_programs_conf s !! nm = Some c /\
                    RadioProgramConf.port c = PInt (sp_port p) /\
                    sp_host p = ctrl_socket_host s).
Proof.
  unfold _init_proxy. unfold_helpers.
  destruct s as [lg cf en st pr io pa ho po cs f tr]. fields.
  crunch; unfold logged, with_ctrl_socket, with_log; fields;
    eexists _, _, _; (split; [reflexivity|]); split; try (intros; congruence);
    try (intros p [= <-]; cbn; eauto 10).
Qed.

Lemma exec_program_spec env name pargs s :
  exists b s', _exec_program env name pargs s = Ok b s' /\
    gr_radio_programs_conf s' = gr_radio_programs_conf s /\
    ctrl_socket s' = ctrl_socket s /\
    default_socket_port s' = default_socket_port s /\
    ((b = false /\ gr_state s' = gr_state s /\ gr_process s' = None /\ gr_exec_name s' = PNone) \/
     (b = true /\ gr_state s' = RUNNING /\
      exists n c l h,
        name = PStr n /\ pargs = PList l /\
        gr_radio_programs_conf s !! n = Some c /\
        gr_exec_name s' = PStr n /\ gr_process s' = Some h /\
        last (trace s') = Some (Spawn h ("env" :: "python2" :: RadioProgramConf.path c :: l)))).
Proof.
  unfold _exec_program. unfold_helpers.
  crunch; (eexists _, _; split; [reflexivity|]); fields;
    (split; [done|]); (split; [done|]); (split; [done|]);
    try (left; done);
    right; (split; [done|]); (split; [done|]);
    eexists _, _, _, _; repeat split; try done; by rewrite last_snoc.
Qed.

(** ** Activation from [INACTIVE] *)

(** Registration and start, the tail of the [INACTIVE] branch of [set_active]. *)
Lemma register_and_start env (name code pargs port : pyval) s :
  let m : M (option bool) :=
    registered <- conf_contains name ;;
    (if negb registered then
       path <- _add_program_to_repo env name code ;;
       conf_setitem name (RadioProgramConf.mk name pargs port code path)
     else ret tt) ;;
    started <- _exec_program env name pargs ;;
    ret (Some started) in
  let r := m s in
  let s' := final_state r in
  ctrl_socket s' = ctrl_socket s /\
  default_socket_port s' = default_socket_port s /\
  ((gr_state s' = gr_state s /\ (forall s1, r <> Ok (Some true) s1)) \/
   (r = Ok (Some true) s' /\ gr_state s' = RUNNING /\
    exists n c l h,
      name = PStr n /\ pargs = PList l /\
      gr_radio_programs_conf s' !! n = Some c /\
      gr_exec_name s' = PStr n /\ gr_process s' = Some h /\
      last (trace s') = Some (Spawn h ("env" :: "python2" :: RadioProgramConf.path c :: l)))).
Proof.
  intros m r s'. subst s' r m. unfold_monad.
  destruct (conf_contains name s) as [registered s0|e s0] eqn:Hc.
  2:{ unfold conf_contains in Hc. destruct name; simplify_eq. fields.
      split; [done|]. split; [done|]. left. split; [done|]. intros; discriminate. }
  assert (s0 = s) as -> by (unfold conf_contains in Hc; destruct name; by simplify_eq).
  destruct registered; cbn [negb].
  - destruct (exec_program_spec env name pargs s) as (b & s1 & He & Hconf & Hctrl & Hport & Hcase).
    rewrite He. fields.
    split; [congruence|]. split; [congruence|].
    destruct Hcase as [(-> & Hst & _)|(-> & Hst & n & c & l & h & -> & -> & Hl & Hn & Hp & Ht)].
    + left. split; [done|]. intros; discriminate.
    + right. split; [done|]. split; [done|]. exists n, c, l, h. by rewrite Hconf.
  - destruct (_add_program_to_repo env name code s) as [path s1|e s1] eqn:Ha;
      apply add_program_frame in Ha; apply session_fields in Ha; fields;
      destruct Ha as (Ha1 & Ha2 & Ha3 & Ha4 & Ha5 & Ha6 & Ha7 & Ha8 & Ha9).
    2:{ split; [done|]. split; [done|]. left. split; [done|]. intros; discriminate. }
    unfold conf_setitem.
    destruct name as [|z|n|l0]; unfold_monad; fields;
      try (split; [done|]; split; [done|]; left; split; [done|]; intros; discriminate).
    match goal with |- context [_exec_program env ?a ?b ?c] =>
      destruct (exec_program_spec env a b c) as (b' & s2 & He & Hconf & Hctrl & Hport & Hcase);
      rewrite He end.
    fields. rewrite Hctrl, Hport. split; [done|]. split; [done|].
    destruct Hcase as [(-> & Hst & _)|(-> & Hst & n' & c & l & h & ? & -> & Hl & Hn & Hp & Ht)].
    + left. split; [congruence|]. intros; discriminate.
    + right. split; [done|]. split; [done|]. exists n', c, l, h. by rewrite Hconf.
Qed.

Lemma set_active_from_inactive env args s :
  gr_state s = INACTIVE ->
  let r := set_active env args s in
  let s' := final_state r in
  ctrl_socket s' = ctrl_socket s /\
  default_socket_port s' = default_socket_port s /\
  ((gr_state s' = INACTIVE /\ (forall s1, r <> Ok (Some true) s1)) \/
   (r = Ok (Some true) s' /\ gr_state s' = RUNNING /\
    exists n c l h,
      arg_or args "program_name" PNone = PStr n /\
      arg_or args "program_args" (PList [""]) = PList l /\
      gr_radio_programs_conf s' !! n = Some c /\
      gr_exec_name s' = PStr n /\ gr_process s' = Some h /\
      last (trace s') = Some (Spawn h ("env" :: "python2" :: RadioProgramConf.path c :: l)))).
Proof.
  intros Hs r s'. subst s' r.
  pose proof (register_and_start env (arg_or args "program_name" PNone)) as R.
  cbv zeta in R.
  unfold set_active. unfold_monad. rewrite decide_True by done.
  set (s0 := with_log _ s) in *.
  assert (H0 : session s0 = session s) by reflexivity. apply session_fields in H0.
  destruct H0 as (H01 & H02 & H03 & H04 & H05 & H06 & H07 & H08 & H09).
  case_decide as Hgrc.
  - destruct (_convert_grc_to_python _ _ _ s0) as [c s1|e s1] eqn:Hconv;
      apply convert_frame in Hconv; apply session_fields in Hconv; fields;
      destruct Hconv as (Ha1 & Ha2 & Ha3 & Ha4 & Ha5 & Ha6 & Ha7 & Ha8 & Ha9).
    2:{ split; [congruence|]. split; [congruence|]. left. split; [congruence|]. intros; discriminate. }
    specialize (R c (arg_or args "program_args" (PList [""]))
                    (arg_or args "program_port" (PInt (default_socket_port s))) s1).
    destruct R as (R1 & R2 & R3).
    split; [congruence|]. split; [congruence|].
    destruct R3 as [[R3 R4]|R3]; [left; split; [congruence|done]|right; done].
  - case_decide as Hpy.
    + fields. split; [done|]. split; [done|]. left. split; [done|]. intros; discriminate.
    + specialize (R (arg_or args "program_code" PNone)
                    (arg_or args "program_args" (PList [""]))
                    (arg_or args "program_port" (PInt (default_socket_port s))) s0).
      destruct R as (R1 & R2 & R3).
      split; [congruence|]. split; [congruence|].
      destruct R3 as [[R3 R4]|R3]; [left; split; [congruence|done]|right; done].
Qed.

(** ** The two loops over parameters *)

Lemma set_loop_connected env proxy kvs s :
  ctrl_socket s = Some proxy ->
  exists s', for_each kvs (set_vars_body env) s = Ok tt s' /\
    session s' = session s /\ fs s' = fs s /\
    trace s' = (trace s ++ map (set_call proxy) kvs)%list.
Proof.
  revert s. induction kvs as [|kv kvs IH]; intros s Hc.
  - exists s. cbn. by rewrite app_nil_r.
  - cbn [for_each]. unfold bind at 1.
    assert (exists s1, set_vars_body env kv s = Ok tt s1 /\ session s1 = session s /\
              fs s1 = fs s /\ trace s1 = (trace s ++ [set_call proxy kv])%list) as (s1 & -> & H1 & H2 & H3).
    { unfold set_vars_body. unfold_helpers. rewrite Hc.
      destruct (xmlrpc _ _ _ _ _); eexists; (split; [reflexivity|]); fields; unfold session; fields;
        by rewrite Hc. }
    destruct (IH s1) as (s' & -> & H4 & H5 & H6).
    { apply session_fields in H1. destruct H1 as (_&_&_&_&_&_&_&_&->). done. }
    exists s'. split; [done|]. split; [congruence|]. split; [congruence|].
    rewrite H6, H3. cbn [map]. by rewrite <- app_assoc.
Qed.

Lemma set_loop_unconnected env kvs s :
  ctrl_socket s = None ->
  exists s', for_each kvs (set_vars_body env) s = Ok tt s' /\
    session s' = session s /\ fs s' = fs s /\ trace s' = trace s.
Proof.
  revert s. induction kvs as [|kv kvs IH]; intros s Hc.
  - by exists s.
  - cbn [for_each]. unfold bind at 1.
    assert (exists s1, set_vars_body env kv s = Ok tt s1 /\ session s1 = session s /\
              fs s1 = fs s /\ trace s1 = trace s) as (s1 & -> & H1 & H2 & H3).
    { unfold set_vars_body. unfold_helpers. rewrite Hc.
      eexists; (split; [reflexivity|]); fields; unfold session; fields. by rewrite Hc. }
    destruct (IH s1) as (s' & -> & H4 & H5 & H6).
    { apply session_fields in H1. destruct H1 as (_&_&_&_&_&_&_&_&->). done. }
    exists s'. split; [done|]. split; [congruence|]. split; congruence.
Qed.

Lemma get_loop_connected env proxy ks rv s :
  ctrl_socket s = Some proxy ->
  exists s', get_vars_loop env ks rv s = Ok (collect env proxy (trace s) ks rv) s' /\
    session s' = session s /\ fs s' = fs s /\
    trace s' = (trace s ++ map (get_call proxy) ks)%list.
Proof.
  revert s rv. induction ks as [|k ks IH]; intros s rv Hc.
  - exists s. cbn. by rewrite app_nil_r.
  - cbn [get_vars_loop collect]. unfold bind at 1.
    match goal with |- context [try_except ?a ?b s] =>
      assert (exists s1, try_except a b s =
                Ok (match xmlrpc env (trace s) proxy ("get_" ++ k) [] with
                    | Reply v => <[k := v]> rv
                    | Failure _ => rv
                    end) s1 /\ session s1 = session s /\
              fs s1 = fs s /\ trace s1 = (trace s ++ [get_call proxy k])%list)
        as (s1 & -> & H1 & H2 & H3) end.
    { unfold_helpers. fields. rewrite Hc.
      destruct (xmlrpc _ _ _ _ _); eexists; (split; [reflexivity|]); fields; unfold session; fields;
        by rewrite Hc. }
    destruct (IH s1 (match xmlrpc env (trace s) proxy ("get_" ++ k) [] with
                    | Reply v => <[k := v]> rv
                    | Failure _ => rv
                    end)) as (s' & H & H4 & H5 & H6).
    { apply session_fields in H1. destruct H1 as (_&_&_&_&_&_&_&_&->). done. }
    rewrite H3 in H. rewrite H.
    exists s'. split; [done|]. split; [congruence|]. split; [congruence|].
    rewrite H6, H3. cbn [map]. by rewrite <- app_assoc.
Qed.

Lemma get_loop_unconnected env ks rv s :
  ctrl_socket s = None ->
  exists s', get_vars_loop env ks rv s = Ok rv s' /\
    session s' = session s /\ fs s' = fs s /\ trace s' = trace s.
Proof.
  revert s. induction ks as [|k ks IH]; intros s Hc.
  - by exists s.
  - cbn [get_vars_loop]. unfold bind at 1.
    match goal with |- context [try_except ?a ?b s] =>
      assert (exists s1, try_except a b s = Ok rv s1 /\ session s1 = session s /\
              fs s1 = fs s /\ trace s1 = trace s)
        as (s1 & -> & H1 & H2 & H3) end.
    { unfold_helpers. fields. rewrite Hc.
      eexists; (split; [reflexivity|]); fields; unfold session; fields. by rewrite Hc. }
    destruct (IH s1) as (s' & -> & H4 & H5 & H6).
    { apply session_fields in H1. destruct H1 as (_&_&_&_&_&_&_&_&->). done. }
    exists s'. split; [done|]. split; [congruence|]. split; congruence.
Qed.

(** ** The invariant of reachable objects *)

Lemma set_active_inv env args s :
  session_inv s -> session_inv (final_state (set_active env args s)).
Proof.
  intros Hinv. destruct (decide (gr_state s = INACTIVE)) as [Hs|Hs].
  - destruct (set_active_from_inactive env args s Hs) as (H1 & H2 & H3).
    destruct Hinv as (I1 & I2 & I3 & I4).
    unfold session_inv. rewrite H1, H2. split; [done|].
    destruct H3 as [[H3 _]|(_ & H3 & n & c & l & h & _ & _ & Hc & Hn & Hp & _)]; rewrite H3.
    + split; [done|]. split; [auto|]. intros [?|?]; discriminate.
    + split; [done|]. split; [discriminate|]. intros _. exists n. rewrite Hc, Hp. eauto.
  - unfold set_active. unfold_monad. rewrite decide_False by done.
    case_decide as Hp.
    + destruct Hp as [Hp Hn].
      match goal with |- context [_init_proxy ?a ?b] =>
        destruct (init_proxy_frame a b) as (l & msg & u & -> & Hu & _) end.
      fields. destruct Hinv as (I1 & I2 & I3 & I4).
      unfold session_inv. fields. split; [done|]. split; [done|]. split; [discriminate|].
      intros _. apply I4. by right.
    + fields. by apply (session_inv_frame s).
Qed.

Lemma set_inactive_inv env n p s :
  session_inv s -> session_inv (final_state (set_inactive env n p s)).
Proof.
  intros (I1 & I2 & I3 & I4).
  unfold set_inactive, _close_gr_process, _remove_program, is_the_class_dict.
  unfold_helpers.
  crunch; unfold session_inv; fields;
    (split; [exact I1|]);
    (split; [first [exact I2|discriminate|idtac]|]);
    try (split; [first [exact I3|discriminate|reflexivity|intros _; reflexivity|idtac]|]);
    first [exact I4 | intros [?|?]; discriminate | intros _; apply I4; tauto | idtac].
  all: intros ?; repeat match goal with H : _ \/ _ |- _ => destruct H end; congruence.
Qed.

Lemma set_vars_inv env kvs s :
  session_inv s -> session_inv (final_state (gnuradio_set_vars env kvs s)).
Proof.
  intros Hinv. unfold gnuradio_set_vars. unfold bind at 1, get at 1.
  case_decide as Hs.
  - unfold bind at 1.
    destruct (init_proxy_frame (gr_exec_name s) s) as (l & msg & u & -> & Hu & _).
    change (for_each kvs _) with (for_each kvs (set_vars_body env)).
    set (s0 := logged l msg (with_ctrl_socket u s)).
    assert (Hinv0 : session_inv s0).
    { destruct Hinv as (I1 & I2 & I3 & I4). unfold session_inv, s0. fields.
      split; [done|]. split; [done|]. split; [|done].
      intros Hi. destruct Hs; congruence. }
    destruct (ctrl_socket s0) as [proxy|] eqn:Hc.
    + destruct (set_loop_connected env proxy kvs s0 Hc) as (s' & -> & H1 & _).
      fields. by apply (session_inv_frame s0).
    + destruct (set_loop_unconnected env kvs s0 Hc) as (s' & -> & H1 & _).
      fields. by apply (session_inv_frame s0).
  - unfold_monad. fields. by apply (session_inv_frame s).
Qed.

Lemma get_vars_inv env ks s :
  session_inv s -> session_inv (final_state (gnuradio_get_vars env ks s)).
Proof.
  intros Hinv. unfold gnuradio_get_vars. unfold bind at 1, get at 1.
  case_decide as Hs.
  - unfold bind at 1.
    destruct (init_proxy_frame (gr_exec_name s) s) as (l & msg & u & -> & Hu & _).
    set (s0 := logged l msg (with_ctrl_socket u s)).
    assert (Hinv0 : session_inv s0).
    { destruct Hinv as (I1 & I2 & I3 & I4). unfold session_inv, s0. fields.
      split; [done|]. split; [done|]. split; [|done].
      intros Hi. destruct Hs; congruence. }
    unfold bind at 1.
    destruct (ctrl_socket s0) as [proxy|] eqn:Hc.
    + destruct (get_loop_connected env proxy ks ∅ s0 Hc) as (s' & -> & H1 & _).
      unfold_monad. fields. apply (session_inv_frame s0); [|done]. by rewrite <- H1.
    + destruct (get_loop_unconnected env ks ∅ s0 Hc) as (s' & -> & H1 & _).
      unfold_monad. fields. apply (session_inv_frame s0); [|done]. by rewrite <- H1.
  - unfold_monad. fields. by apply (session_inv_frame s).
Qed.

Lemma init_inv home files : session_inv (init home files).
Proof.
  unfold session_inv, init. fields. split; [done|]. split; [done|]. split; [done|].
  intros [?|?]; discriminate.
Qed.

Lemma after_inv env o s : session_inv s -> session_inv (after env o s).
Proof.
  intros Hinv. unfold after, run. destruct o.
  - pose proof (set_active_inv env args s Hinv) as H.
    unfold bind, ret. by destruct (set_active env args s) as [[b|] s'|e s'].
  - pose proof (set_inactive_inv env radio_program_name pause s Hinv) as H.
    unfold bind, ret. by destruct (set_inactive _ _ _ s).
  - pose proof (set_vars_inv env param_key_values_dict s Hinv) as H.
    unfold bind, ret. by destruct (gnuradio_set_vars _ _ s).
  - pose proof (get_vars_inv env param_key_list s Hinv) as H.
    unfold bind, ret. by destruct (gnuradio_get_vars _ _ s) as [[d|] s'|e s'].
  - unfold get_running_radio_program. unfold_monad. by case_decide.
Qed.

Lemma reachable_inv env s : reachable env s -> session_inv s.
Proof.
  induction 1 as [home files|s o _ IH]; [apply init_inv | by apply after_inv].
Qed.

Lemma conf_contains_absent (s : GnuRadioModule) (n : string) :
  gr_radio_programs_conf s !! n = None ->
  conf_contains (PStr n) s = Ok false s.
Proof.
  intros H. unfold conf_contains. rewrite H.
  rewrite bool_decide_eq_false_2; [done | by intros [? ?]].
Qed.

(** ** The concrete object *)

Lemma demo_running_reachable : reachable demo_env demo_running.
Proof. apply reachable_step, reachable_init. Qed.

Lemma demo_running_state : gr_state demo_running = RUNNING.
Proof. vm_compute. reflexivity. Qed.

Lemma demo_running_name : gr_exec_name demo_running = PStr "fm".
Proof. vm_compute. reflexivity. Qed.

(** ** Removing a program that is not registered *)

(** The lookup after the log line. *)
Lemma remove_program_absent (s : GnuRadioModule) (n : string) :
  gr_radio_programs_conf s !! n = None ->
  _remove_program (PStr n) s
  = Raised KeyError (logged INFO "Could not remove program '%s': not registered" s).
Proof.
  intros H. unfold _remove_program, bind at 1.
  rewrite (conf_contains_absent _ _ H). cbn [negb].
  unfold_helpers. fields. by rewrite H.
Qed.

(** A removal that succeeded was of a string, and leaves it unregistered. *)
Lemma remove_program_unregisters (s s' : GnuRadioModule) (k : pyval) :
  _remove_program k s = Ok tt s' ->
  exists n, k = PStr n /\ gr_radio_programs_conf s' !! n = None.
Proof.
  unfold _remove_program. unfold_helpers. intros H.
  destruct k as [|z|n|l]; try discriminate.
  exists n. split; [done|].
  revert H. crunch; intros H; try discriminate;
    injection H as <-; fields; apply lookup_delete_eq.
Qed.

(** C1.  [_remove_program] on a name that is not registered, or on a
    name it has just removed, writes its log line and then goes on to look
    the name up: the lookup raises [KeyError], with nothing but the log
    changed. *)
Theorem remove_program_unregistered_raises (s : GnuRadioModule) (n : string) :
  gr_radio_programs_conf s !! n = None \/
  (exists s0, _remove_program (PStr n) s0 = Ok tt s) ->
  _remove_program (PStr n) s
  = Raised KeyError (logged INFO "Could not remove program '%s': not registered" s).
Proof.
  intros [H|[s0 H]]; [by apply remove_program_absent|].
  apply remove_program_unregisters in H as (n' & [= <-] & H).
  by apply remove_program_absent.
Qed.

Lemma remove_program_unregistered_raises_witness :
  _remove_program (PStr "fm") demo_init
  = Raised KeyError (logged INFO "Could not remove program '%s': not registered" demo_init).
Proof. apply remove_program_unregistered_raises. left. reflexivity. Defined.

(** The second removal at the concrete object: [fm] is stopped, which
    removes it, and removed again. *)
Example remove_program_twice_demo :
  let s := after demo_env (Deactivate (PStr "fm") false) demo_running in
  gr_radio_programs_conf s !! "fm" = None /\
  _remove_program (PStr "fm") s
  = Raised KeyError (logged INFO "Could not remove program '%s': not registered" s).
Proof. vm_compute. done. Qed.

(** ** Requests the state forbids *)

(** C7.  A request the state forbids returns [None] and leaves the object
    as it was but for one more log line: no field of the session changes
    and nothing is raised. *)
Theorem forbidden_is_logged_noop (env : Env) (s : GnuRadioModule) (o : op) :
  forbidden s o ->
  exists l msg, run env o s = Ok (RVal PNone) (logged l msg s).
Proof.
  intros H. destruct H as [args H|args H Hn|n p H|n p H|kvs H|ks H]; simpl.
  - exists WARN, "Please deactive old radio program before activating a new one.".
    unfold set_active. unfold_monad.
    rewrite H. rewrite decide_False by discriminate.
    by rewrite decide_False by (intros [? _]; discriminate).
  - exists WARN, "Please deactive old radio program before activating a new one.".
    unfold set_active. unfold_monad.
    rewrite H. rewrite decide_False by discriminate.
    by rewrite decide_False by (intros [_ ?]; congruence).
  - exists INFO, "Program {} is not running. Running program is {}".
    unfold set_inactive. unfold_monad. by rewrite decide_True.
  - unfold set_inactive. unfold_monad. case_decide.
    + by exists INFO, "Program {} is not running. Running program is {}".
    + exists WARN, "no running or paused radio program; ignore command".
      rewrite H. by rewrite decide_False by (intros [?|?]; discriminate).
  - exists WARN, "no running or paused radio program; ignore command".
    unfold gnuradio_set_vars. unfold_monad.
    rewrite H. by rewrite decide_False by (intros [?|?]; discriminate).
  - exists WARN, "no running or paused radio program; ignore command".
    unfold gnuradio_get_vars. unfold_monad.
    rewrite H. by rewrite decide_False by (intros [?|?]; discriminate).
Qed.

Lemma forbidden_is_logged_noop_witness :
  exists l msg,
    run demo_env (Deactivate (PStr "other") false) demo_running
    = Ok (RVal PNone) (logged l msg demo_running).
Proof.
  apply forbidden_is_logged_noop. apply forbidden_deactivate_foreign.
  vm_compute. discriminate.
Defined.

(** ** Starting a process while one is held *)

(** C9.  Started while a handle [h] is held, [_exec_program] returns, and
    what it did outside is: kill [h], once, and then at most one spawn.  The
    handle it holds afterwards is the new process or none, never [h] kept
    alive beside a new one. *)
Theorem exec_program_kills_previous (env : Env) (name program_args : pyval)
    (s : GnuRadioModule) (h : nat) :
  gr_process s = Some h ->
  exists b s',
    _exec_program env name program_args s = Ok b s' /\
    ((b = false /\ trace s' = (trace s ++ [Kill h])%list /\ gr_process s' = None) \/
     (b = true /\ exists argv,
         trace s' = (trace s ++ [Kill h; Spawn (S (length (trace s))) argv])%list /\
         gr_process s' = Some (S (length (trace s))))).
Proof.
  intros H. unfold _exec_program. unfold_monad. unfold kill. unfold_monad.
  rewrite H. unfold conf_getitem, str_add_l, list_add. unfold_monad.
  destruct (gr_process_io s); fields;
    repeat (destruct_inner; fields);
    (eexists _, _; split; [reflexivity|]); fields;
    try (left; done);
    right; (split; [done|]); rewrite ?length_app; cbn [length];
    rewrite <- ?app_assoc; cbn [app];
    replace (length (trace s) + 1)%nat with (S (length (trace s))) by lia;
    eauto.
Qed.

Lemma exec_program_kills_previous_witness :
  exists b s',
    _exec_program demo_env (PStr "fm") (PList []) demo_running = Ok b s' /\
    ((b = false /\ trace s' = (trace demo_running ++ [Kill 0%nat])%list /\ gr_process s' = None) \/
     (b = true /\ exists argv,
         trace s' = (trace demo_running
                       ++ [Kill 0%nat; Spawn (S (length (trace demo_running))) argv])%list /\
         gr_process s' = Some (S (length (trace demo_running))))).
Proof. apply exec_program_kills_previous. vm_compute. reflexivity. Defined.

(** ** A conversion that fails *)

(** C2, as the contract states it, fails: the flowgraph of
    [demo_broken_args] does not parse, and [set_active] does not return. *)
Lemma compile_failure_escapes :
  ~ compile_failure_is_returned demo_env demo_broken_args demo_init.
Proof.
  intros H. destruct H as (r & s' & E & _).
  - reflexivity.
  - vm_compute. reflexivity.
  - eexists _, _. vm_compute. reflexivity.
  - vm_compute in E. discriminate.
Qed.

(** C2, amended.  When the conversion of a [grc] program raises, the
    activation is aborted where the conversion stopped: the exception leaves
    [set_active], no field of the object has changed (the state is still
    [INACTIVE], nothing is registered, no handle is taken), and all that
    happened outside is at most one run of the compiler. *)
Theorem compile_failure_aborts_activation env args s e s1 :
  gr_state s = INACTIVE ->
  arg_or args "program_type" (PStr "grc") = PStr "grc" ->
  _convert_grc_to_python env (arg_or args "program_name" PNone)
    (arg_or args "program_code" PNone)
    (logged INFO "Start new radio program" s) = Raised e s1 ->
  set_active env args s = Raised e s1 /\
  session s1 = session s /\
  gr_state s1 = INACTIVE /\
  (trace s1 = trace s \/ exists argv, trace s1 = (trace s ++ [Run argv])%list).
Proof.
  intros Hs Ht Hc.
  split.
  { unfold set_active. unfold_monad. rewrite decide_True by done.
    rewrite decide_True by done. unfold logged in Hc. by rewrite Hc. }
  pose proof (convert_frame _ _ _ _ _ Hc) as F. fields.
  pose proof (convert_trace env (arg_or args "program_name" PNone)
                (arg_or args "program_code" PNone)
                (logged INFO "Start new radio program" s)) as T.
  cbv zeta in T. rewrite Hc in T. fields.
  split; [exact F|]. split; [|exact T].
  apply session_fields in F. destruct F as (_ & _ & F & _). by rewrite F.
Qed.

Lemma compile_failure_aborts_activation_witness :
  exists s1,
    set_active demo_env demo_broken_args demo_init = Raised XMLSyntaxError s1 /\
    session s1 = session demo_init /\
    gr_state s1 = INACTIVE /\
    (trace s1 = trace demo_init \/
     exists argv, trace s1 = (trace demo_init ++ [Run argv])%list).
Proof.
  eexists.
  apply (compile_failure_aborts_activation demo_env demo_broken_args demo_init).
  - reflexivity.
  - vm_compute. reflexivity.
  - vm_compute. reflexivity.
Defined.

(** The other two failures of the contract at the concrete object: the
    compiler cannot be run, which is caught and logged, and then the output
    file is missing, which is not. *)
Example compile_failure_missing_output_demo :
  exists s1,
    set_active demo_env demo_grc_args demo_init = Raised FileNotFoundError s1 /\
    gr_state s1 = INACTIVE /\
    last (log s1) = Some (INFO, "could not execute grcc compiler") /\
    trace s1 = [Run ["grcc"; "--directory=/home/u/.wishful/radio"; "/tmp/tmpgrc0"]].
Proof. eexists. vm_compute. done. Qed.

(** ** The running program *)

(** C6.  On a reachable object [get_running_radio_program] returns the
    name of the active program when the state is [RUNNING], and [None] in
    every other state, [PAUSED] included. *)
Theorem running_program_reported_only_when_running env s :
  reachable env s ->
  (gr_state s = RUNNING ->
   exists n, gr_exec_name s = PStr n /\ get_running_radio_program s = Ok (PStr n) s) /\
  (gr_state s <> RUNNING -> get_running_radio_program s = Ok PNone s).
Proof.
  intros Hr. destruct (reachable_inv _ _ Hr) as (_ & _ & _ & I4).
  unfold get_running_radio_program. unfold_monad. split; intros Hs.
  - destruct I4 as (n & Hn & _); [by left|].
    exists n. split; [done|]. rewrite decide_True by done. by rewrite Hn.
  - by rewrite decide_False.
Qed.

Lemma running_program_reported_only_when_running_witness :
  (gr_state demo_running = RUNNING ->
   exists n, gr_exec_name demo_running = PStr n /\
             get_running_radio_program demo_running = Ok (PStr n) demo_running) /\
  (gr_state demo_running <> RUNNING ->
   get_running_radio_program demo_running = Ok PNone demo_running).
Proof.
  apply (running_program_reported_only_when_running demo_env).
  exact demo_running_reachable.
Defined.

(** A paused program is not reported. *)
Example paused_program_not_reported :
  let s := after demo_env (Deactivate (PStr "fm") true) demo_connected in
  gr_state s = PAUSED /\ gr_exec_name s = PStr "fm" /\
  get_running_radio_program s = Ok PNone s.
Proof. vm_compute. done. Qed.

(** ** Stopping the active program *)

(** What [set_inactive(name, pause=False)] does to the active program. *)
Lemma set_inactive_stop_spec env s nm c :
  gr_state s = RUNNING \/ gr_state s = PAUSED ->
  gr_exec_name s = PStr nm ->
  gr_radio_programs_conf s !! nm = Some c ->
  exists s', set_inactive env (PStr nm) false s = Ok tt s' /\
    gr_state s' = INACTIVE /\
    gr_exec_name s' = PStr nm /\
    gr_process s' = gr_process s /\
    gr_process_io s' = gr_process_io s /\
    ctrl_socket s' = None /\
    gr_radio_programs_conf s' = delete nm (gr_radio_programs_conf s) /\
    fs s' !! RadioProgramConf.path c = None /\
    trace s' = (trace s ++ match gr_process s with Some h => [Kill h] | None => [] end)%list.
Proof.
  intros Hs Hn Hc.
  unfold set_inactive, _close_gr_process, _remove_program, is_the_class_dict.
  unfold_helpers. rewrite Hn.
  rewrite decide_False by (intros ?; congruence).
  rewrite decide_True by done.
  fields. destruct (gr_process s) eqn:Hgp, (gr_process_io s) eqn:Hio; fields;
  rewrite bool_decide_eq_true_2 by eauto; cbn [negb]; fields; rewrite ?Hc;
  crunch; try discriminate;
    (eexists; split; [reflexivity|]); fields; rewrite ?app_nil_r;
    repeat split; try done;
    repeat match goal with
           | H : bool_decide _ = false |- _ =>
               apply bool_decide_eq_false in H; rewrite <- eq_None_not_Some in H
           end;
    rewrite ?lookup_delete; repeat case_decide; done.
Qed.

(** C3.  After the active program of a reachable object is stopped, the
    state is [INACTIVE] and the control channel is gone, but the object
    still holds the handle of the process it killed: [_close_gr_process]
    never clears [gr_process]. *)
Theorem stop_keeps_process_handle env s nm :
  reachable env s ->
  gr_state s = RUNNING \/ gr_state s = PAUSED ->
  gr_exec_name s = PStr nm ->
  exists s' h, set_inactive env (PStr nm) false s = Ok tt s' /\
    gr_state s' = INACTIVE /\ ctrl_socket s' = None /\ gr_process s' = Some h.
Proof.
  intros Hr Hs Hn. destruct (reachable_inv _ _ Hr) as (_ & _ & _ & I4).
  destruct (I4 Hs) as (n & Hn' & [c Hc] & [h Hh]).
  assert (n = nm) as -> by congruence.
  destruct (set_inactive_stop_spec env s nm c Hs Hn Hc)
    as (s' & E & H1 & _ & H3 & _ & H5 & _).
  exists s', h. rewrite H3. done.
Qed.

Lemma stop_keeps_process_handle_witness :
  exists s' h, set_inactive demo_env (PStr "fm") false demo_running = Ok tt s' /\
    gr_state s' = INACTIVE /\ ctrl_socket s' = None /\ gr_process s' = Some h.
Proof.
  apply stop_keeps_process_handle.
  - exact demo_running_reachable.
  - left. exact demo_running_state.
  - exact demo_running_name.
Defined.

(** The same at the concrete object: the handle held after the stop is the
    killed process 0. *)
Example stop_keeps_process_handle_demo :
  let s := after demo_env (Deactivate (PStr "fm") false) demo_running in
  gr_state s = INACTIVE /\ gr_process s = Some 0%nat /\
  trace s = [Spawn 0 ["env"; "python2"; "/home/u/.wishful/radio/fm.py"; ""]; Kill 0].
Proof. vm_compute. done. Qed.

(** C4.  Stopping the active program sets the state to [INACTIVE], kills
    the process, drops the control channel and removes the registration and
    the file; the two output streams are left exactly as they were, open:
    the guard [self.gr_process_io is dict] is never true. *)
Theorem stop_leaves_streams_open env s nm c h io :
  gr_state s = RUNNING \/ gr_state s = PAUSED ->
  gr_exec_name s = PStr nm ->
  gr_radio_programs_conf s !! nm = Some c ->
  gr_process s = Some h ->
  gr_process_io s = Some io ->
  exists s', set_inactive env (PStr nm) false s = Ok tt s' /\
    gr_state s' = INACTIVE /\
    trace s' = (trace s ++ [Kill h])%list /\
    ctrl_socket s' = None /\
    gr_radio_programs_conf s' !! nm = None /\
    fs s' !! RadioProgramConf.path c = None /\
    gr_process_io s' = Some io.
Proof.
  intros Hs Hn Hc Hh Hio.
  destruct (set_inactive_stop_spec env s nm c Hs Hn Hc)
    as (s' & E & H1 & H2 & H3 & H4 & H5 & H6 & H7 & H8).
  exists s'. rewrite Hh in H8. rewrite H6, lookup_delete_eq.
  repeat split; try done. congruence.
Qed.

Lemma stop_leaves_streams_open_witness :
  exists s', set_inactive demo_env (PStr "fm") false demo_running = Ok tt s' /\
    gr_state s' = INACTIVE /\
    trace s' = (trace demo_running ++ [Kill 0%nat])%list /\
    ctrl_socket s' = None /\
    gr_radio_programs_conf s' !! "fm" = None /\
    fs s' !! "/home/u/.wishful/radio/fm.py" = None /\
    gr_process_io s'
    = Some {| io_stdout := Some {| f_name := "/tmp/gnuradio.log"; closed := false |};
              io_stderr := Some {| f_name := "/tmp/gnuradio-err.log"; closed := false |} |}.
Proof.
  apply (stop_leaves_streams_open demo_env demo_running "fm"
           (RadioProgramConf.mk (PStr "fm") (PList [""]) (PInt 1235) (PStr "print(1)")
              "/home/u/.wishful/radio/fm.py")).
  - left. exact demo_running_state.
  - exact demo_running_name.
  - vm_compute. reflexivity.
  - vm_compute. reflexivity.
  - vm_compute. reflexivity.
Defined.

(** ** Pausing right after an activation *)

(** C5.  When an activation from [INACTIVE] has succeeded, the object has
    no control channel; the pause that follows raises [AttributeError] at
    [self.ctrl_socket.stop()] before any request is sent, and the state
    stays [RUNNING]: it is never [PAUSED], so there is nothing to resume. *)
Theorem pause_after_activate_raises env args s s1 :
  reachable env s ->
  gr_state s = INACTIVE ->
  set_active env args s = Ok (Some true) s1 ->
  set_inactive env (arg_or args "program_name" PNone) true s1
  = Raised AttributeError (logged INFO "Pausing radio program" s1) /\
  gr_state s1 = RUNNING /\ ctrl_socket s1 = None.
Proof.
  intros Hr Hs Ha. destruct (reachable_inv _ _ Hr) as (_ & _ & I3 & _).
  destruct (set_active_from_inactive env args s Hs) as (H1 & H2 & H3).
  rewrite Ha in H1, H2, H3. fields.
  destruct H3 as [[_ H3]|(_ & H3 & n & c & l & h & Hn & _ & _ & He & _)].
  { by destruct (H3 s1). }
  rewrite I3 in H1 by done.
  split; [|done].
  unfold set_inactive. unfold_helpers. rewrite Hn, He, H3.
  rewrite decide_False by (intros ?; congruence).
  rewrite decide_True by (by left).
  fields. by rewrite H1.
Qed.

Lemma pause_after_activate_raises_witness :
  set_inactive demo_env (arg_or demo_args "program_name" PNone) true demo_running
  = Raised AttributeError (logged INFO "Pausing radio program" demo_running) /\
  gr_state demo_running = RUNNING /\ ctrl_socket demo_running = None.
Proof.
  apply (pause_after_activate_raises demo_env demo_args demo_init).
  - apply reachable_init.
  - reflexivity.
  - vm_compute. reflexivity.
Defined.

(** The whole round trip at the concrete object: the pause raises, the
    second activation is refused because the state is still [RUNNING], and
    no request ever reaches the endpoint. *)
Example pause_resume_demo :
  let s2 := after demo_env (Deactivate (PStr "fm") true) demo_running in
  let s3 := after demo_env (Activate demo_args) s2 in
  gr_state s2 = RUNNING /\
  run demo_env (Activate demo_args) s2
  = Ok (RVal PNone)
       (logged WARN "Please deactive old radio program before activating a new one." s2) /\
  trace s3 = [Spawn 0 ["env"; "python2"; "/home/u/.wishful/radio/fm.py"; ""]].
Proof. vm_compute. done. Qed.

(** Once a batch of parameters has connected the channel, the round trip
    does what the pause and the resume are written for. *)
Example pause_resume_connected_demo :
  let s2 := after demo_env (Deactivate (PStr "fm") true) demo_connected in
  let s3 := after demo_env (Activate demo_args) s2 in
  gr_state s2 = PAUSED /\ gr_state s3 = RUNNING /\ gr_exec_name s3 = PStr "fm" /\
  gr_process s3 = Some 0%nat /\
  trace s3 = [Spawn 0 ["env"; "python2"; "/home/u/.wishful/radio/fm.py"; ""];
              Call {| sp_host := "localhost"; sp_port := 1235 |} "get_freq" [];
              Call {| sp_host := "localhost"; sp_port := 1235 |} "stop" [];
              Call {| sp_host := "localhost"; sp_port := 1235 |} "wait" []].
Proof. vm_compute. done. Qed.

(** ** Parameter batches *)

Lemma get_reply_head env proxy tr k ks :
  get_reply env proxy tr (k :: ks) 0 = Some (xmlrpc env tr proxy ("get_" ++ k) []).
Proof. unfold get_reply. cbn. by rewrite app_nil_r. Qed.

Lemma get_reply_tail env proxy tr k ks i :
  get_reply env proxy tr (k :: ks) (S i)
  = get_reply env proxy (tr ++ [get_call proxy k]) ks i.
Proof. unfold get_reply. cbn. by rewrite <- app_assoc. Qed.

(** A key all of whose reads fail keeps what the dictionary had for it. *)
Lemma collect_all_fail env proxy tr ks rv k :
  (forall j, ks !! j = Some k ->
             exists e, get_reply env proxy tr ks j = Some (Failure e)) ->
  collect env proxy tr ks rv !! k = rv !! k.
Proof.
  revert tr rv. induction ks as [|k0 ks IH]; intros tr rv Hf; [done|].
  cbn [collect]. rewrite IH.
  - destruct (decide (k0 = k)) as [->|Hne].
    + destruct (Hf 0%nat eq_refl) as [e He].
      rewrite get_reply_head in He. injection He as He. by rewrite He.
    + destruct (xmlrpc env tr proxy _ _); [by rewrite lookup_insert_ne|done].
  - intros j Hj. destruct (Hf (S j) Hj) as [e He].
    rewrite get_reply_tail in He. eauto.
Qed.

(** Whatever is in the dictionary was there before or was read. *)
Lemma collect_lookup_read env proxy tr ks rv k v :
  collect env proxy tr ks rv !! k = Some v ->
  rv !! k = Some v \/
  exists i, ks !! i = Some k /\ get_reply env proxy tr ks i = Some (Reply v).
Proof.
  revert tr rv. induction ks as [|k0 ks IH]; intros tr rv H; [by left|].
  cbn [collect] in H. apply IH in H as [H|(i & Hi & Hr)].
  - destruct (xmlrpc env tr proxy ("get_" ++ k0) []) as [v0|e] eqn:E; [|by left].
    destruct (decide (k0 = k)) as [->|Hne].
    + rewrite lookup_insert_eq in H. simplify_eq.
      right. exists 0%nat. split; [done|]. by rewrite get_reply_head, E.
    + rewrite lookup_insert_ne in H by done. by left.
  - right. exists (S i). split; [done|]. by rewrite get_reply_tail.
Qed.

(** The last read of a key that succeeds decides its entry. *)
Lemma collect_lookup_last env proxy tr ks rv i k v :
  ks !! i = Some k ->
  get_reply env proxy tr ks i = Some (Reply v) ->
  (forall j, (i < j)%nat -> ks !! j = Some k ->
             exists e, get_reply env proxy tr ks j = Some (Failure e)) ->
  collect env proxy tr ks rv !! k = Some v.
Proof.
  revert tr rv i. induction ks as [|k0 ks IH]; intros tr rv i Hi Hr Hl; [done|].
  cbn [collect]. destruct i as [|i].
  - cbn in Hi. injection Hi as ->. rewrite get_reply_head in Hr. injection Hr as Hr.
    rewrite collect_all_fail.
    + rewrite Hr. apply lookup_insert_eq.
    + intros j Hj. destruct (Hl (S j)) as [e He]; [lia|done|].
      rewrite get_reply_tail in He. eauto.
  - rewrite get_reply_tail in Hr. apply (IH _ _ i); [done|done|].
    intros j Hij Hj. destruct (Hl (S j)) as [e He]; [lia|done|].
    rewrite get_reply_tail in He. eauto.
Qed.

(** C8.  In [RUNNING] or [PAUSED] neither batch raises, and neither
    touches the state, the active name, the registrations, the process or
    the files.  A batch of writes sends the request of every key, in order,
    whatever the replies to the others were, and nothing else.  A batch of
    reads sends every request too; the dictionary it returns holds a key
    only with a value some read of it returned, and holds every key at the
    value of its last successful read.  When the channel could not be
    created every key fails and nothing is sent. *)
Theorem parameter_batches_survive_failures env s :
  gr_state s = RUNNING \/ gr_state s = PAUSED ->
  (forall kvs, exists s',
      gnuradio_set_vars env kvs s = Ok tt s' /\ batch_frame s s' /\
      match ctrl_socket s' with
      | Some proxy => trace s' = (trace s ++ map (set_call proxy) kvs)%list
      | None => trace s' = trace s
      end) /\
  (forall ks, exists rv s',
      gnuradio_get_vars env ks s = Ok (Some rv) s' /\ batch_frame s s' /\
      match ctrl_socket s' with
      | Some proxy =>
          trace s' = (trace s ++ map (get_call proxy) ks)%list /\
          (forall k v, rv !! k = Some v ->
             exists i, ks !! i = Some k /\
                       get_reply env proxy (trace s) ks i = Some (Reply v)) /\
          (forall i k v,
             ks !! i = Some k ->
             get_reply env proxy (trace s) ks i = Some (Reply v) ->
             (forall j, (i < j)%nat -> ks !! j = Some k ->
                        exists e, get_reply env proxy (trace s) ks j = Some (Failure e)) ->
             rv !! k = Some v)
      | None => trace s' = trace s /\ rv = ∅
      end).
Proof.
  intros Hs.
  destruct (init_proxy_frame (gr_exec_name s) s) as (l & msg & u & Hinit & Hu & _).
  set (s0 := logged l msg (with_ctrl_socket u s)) in *.
  assert (Hframe : forall s', session s' = session s0 -> fs s' = fs s0 -> batch_frame s s').
  { intros s' H1 H2. apply session_fields in H1.
    destruct H1 as (H11 & H12 & H13 & H14 & H15 & _ & _ & _ & H19).
    unfold batch_frame. rewrite H11, H12, H13, H14, H15, H2, H19. unfold s0. fields.
    repeat split; try done. }
  split.
  - intros kvs. unfold gnuradio_set_vars. unfold bind at 1, get at 1.
    rewrite decide_True by done. unfold bind at 1. rewrite Hinit.
    change (for_each kvs _) with (for_each kvs (set_vars_body env)).
    destruct (ctrl_socket s0) as [proxy|] eqn:Hc.
    + destruct (set_loop_connected env proxy kvs s0 Hc) as (s' & -> & H1 & H2 & H3).
      exists s'. split; [done|]. split; [by apply Hframe|].
      apply session_fields in H1. destruct H1 as (_&_&_&_&_&_&_&_&->). by rewrite Hc.
    + destruct (set_loop_unconnected env kvs s0 Hc) as (s' & -> & H1 & H2 & H3).
      exists s'. split; [done|]. split; [by apply Hframe|].
      apply session_fields in H1. destruct H1 as (_&_&_&_&_&_&_&_&->). by rewrite Hc.
  - intros ks. unfold gnuradio_get_vars. unfold bind at 1, get at 1.
    rewrite decide_True by done. unfold bind at 1. rewrite Hinit.
    unfold bind at 1.
    destruct (ctrl_socket s0) as [proxy|] eqn:Hc.
    + destruct (get_loop_connected env proxy ks ∅ s0 Hc) as (s' & -> & H1 & H2 & H3).
      unfold_monad. eexists _, _. split; [reflexivity|]. fields.
      split; [apply Hframe; [by rewrite <- H1|done]|].
      apply session_fields in H1. destruct H1 as (_&_&_&_&_&_&_&_&->). rewrite Hc.
      split; [done|]. split.
      * intros k v Hk. apply collect_lookup_read in Hk as [Hk|Hk]; [done|exact Hk].
      * intros i k v. apply collect_lookup_last.
    + destruct (get_loop_unconnected env ks ∅ s0 Hc) as (s' & -> & H1 & H2 & H3).
      unfold_monad. eexists _, _. split; [reflexivity|]. fields.
      split; [apply Hframe; [by rewrite <- H1|done]|].
      apply session_fields in H1. destruct H1 as (_&_&_&_&_&_&_&_&->). by rewrite Hc.
Qed.

(** At the concrete object: [freq] is written and read, [gain] is unknown
    to the endpoint. *)
Lemma parameter_batches_survive_failures_witness :
  (exists s',
      gnuradio_set_vars demo_env [("gain", PInt 3); ("freq", PInt 5)] demo_running
      = Ok tt s' /\ batch_frame demo_running s' /\
      match ctrl_socket s' with
      | Some proxy =>
          trace s' = (trace demo_running
                        ++ map (set_call proxy) [("gain", PInt 3); ("freq", PInt 5)])%list
      | None => trace s' = trace demo_running
      end).
Proof.
  destruct (parameter_batches_survive_failures demo_env demo_running
              (or_introl demo_running_state)) as [Hset _].
  exact (Hset [("gain", PInt 3); ("freq", PInt 5)]).
Defined.

Example parameter_batch_demo :
  let s1 := after demo_env (SetParameters [("gain", PInt 3); ("freq", PInt 5)]) demo_running in
  trace s1 = [Spawn 0 ["env"; "python2"; "/home/u/.wishful/radio/fm.py"; ""];
              Call {| sp_host := "localhost"; sp_port := 1235 |} "set_gain" [PInt 3];
              Call {| sp_host := "localhost"; sp_port := 1235 |} "set_freq" [PInt 5]] /\
  exists s2, gnuradio_get_vars demo_env ["gain"; "freq"] s1
             = Ok (Some {[ "freq" := PInt 100 ]}) s2.
Proof. split; [vm_compute; reflexivity|]. eexists. vm_compute. reflexivity. Qed.

(** ** The defaults of [set_active] *)

Lemma arg_or_insert_same (args : gmap string pyval) k d :
  args !! k = None -> arg_or (<[k := d]> args) k d = arg_or args k d.
Proof. intros H. unfold arg_or. by rewrite lookup_insert_eq, H. Qed.

Lemma arg_or_insert_other (args : gmap string pyval) k d k' d' :
  k <> k' -> arg_or (<[k := d]> args) k' d' = arg_or args k' d'.
Proof. intros H. unfold arg_or. by rewrite lookup_insert_ne. Qed.

(** Only the [INACTIVE] branch of [set_active] returns a boolean. *)
Lemma set_active_true_inactive env args s s' :
  set_active env args s = Ok (Some true) s' -> gr_state s = INACTIVE.
Proof.
  intros H. destruct (decide (gr_state s = INACTIVE)) as [|Hs]; [done|].
  unfold set_active in H. unfold_monad. rewrite decide_False in H by done.
  case_decide; [|discriminate].
  match type of H with context [_init_proxy ?a ?b] =>
    destruct (init_proxy_frame a b) as (l & msg & u & E & _); rewrite E in H end.
  discriminate.
Qed.

(** A conversion that returns was given a string as name. *)
Lemma convert_ok_string_name env (name code v : pyval) (s s' : GnuRadioModule) :
  _convert_grc_to_python env name code s = Ok v s' -> exists n, name = PStr n.
Proof.
  unfold _convert_grc_to_python. unfold_helpers.
  crunch; intros H; try discriminate; eauto.
Qed.

(** A conversion that returns has run the compiler, once, on the temporary
    file. *)
Lemma convert_ok_trace env (name code v : pyval) (s s' : GnuRadioModule) :
  _convert_grc_to_python env name code s = Ok v s' ->
  trace s' = (trace s ++ [Run ["grcc"; ("--directory=" ++ gr_radio_programs_path s)%string;
                               NamedTemporaryFile env (fs s)]])%list.
Proof.
  unfold _convert_grc_to_python. unfold_helpers.
  crunch; intros H; try discriminate; injection H as <- <-; fields; reflexivity.
Qed.

Lemma exec_program_trace env name pargs s :
  exists tl, trace (final_state (_exec_program env name pargs s)) = (trace s ++ tl)%list.
Proof.
  unfold _exec_program. unfold_helpers.
  crunch; first [ by exists []; rewrite app_nil_r
                | by eexists
                | rewrite <- app_assoc; by eexists ].
Qed.

(** What registration and start, the tail of the [INACTIVE] branch, do to
    the trace and to the registrations. *)
Lemma register_and_start_effects env (name code pargs port : pyval) s :
  let m : M (option bool) :=
    registered <- conf_contains name ;;
    (if negb registered then
       path <- _add_program_to_repo env name code ;;
       conf_setitem name (RadioProgramConf.mk name pargs port code path)
     else ret tt) ;;
    started <- _exec_program env name pargs ;;
    ret (Some started) in
  let s' := final_state (m s) in
  (exists tl, trace s' = (trace s ++ tl)%list) /\
  (gr_radio_programs_conf s' = gr_radio_programs_conf s \/
   exists n path,
     gr_radio_programs_conf s' 
     = <[n := RadioProgramConf.mk name pargs port code path]> (gr_radio_programs_conf s)) /\
  (forall s1, m s <> Ok None s1).
Proof.
  intros m s'. subst s' m. unfold_monad.
  destruct (conf_contains name s) as [registered s0|e s0] eqn:Hc.
  2:{ unfold conf_contains in Hc. destruct name; simplify_eq. fields.
      split; [by exists []; rewrite app_nil_r|]. split; [by left|]. intros; discriminate. }
  assert (s0 = s) as -> by (unfold conf_contains in Hc; destruct name; by simplify_eq).
  destruct registered; cbn [negb].
  - destruct (exec_program_trace env name pargs s) as [tl Ht].
    destruct (exec_program_spec env name pargs s) as (b & s1 & E & F3 & _).
    rewrite E in Ht |- *. fields.
    split; [by exists tl|]. split; [by left|]. intros; discriminate.
  - unfold _add_program_to_repo, _build_radio_program_dict. unfold_helpers.
    destruct name as [|z|n|l0]; fields;
      try (split; [by exists []; rewrite app_nil_r|]; split; [by left|]; intros; discriminate).
    destruct (open_w env _ _) as [e|]; fields;
      try (split; [by exists []; rewrite app_nil_r|]; split; [by left|]; intros; discriminate).
    destruct code as [|z|c|l0]; fields;
      try (split; [by exists []; rewrite app_nil_r|]; split; [by left|]; intros; discriminate).
    match goal with |- context [_exec_program env ?a ?b ?c] =>
      destruct (exec_program_trace env a b c) as [tl Ht];
      destruct (exec_program_spec env a b c) as (b' & s1 & E & F3 & _);
      rewrite E in Ht |- * end.
    fields. split; [by exists tl|]. split; [right; rewrite F3; by eexists _, _|].
    intros; discriminate.
Qed.

(** The registrations after [set_active]: as before, or with one more, made
    from the arguments and the port of the call or their defaults. *)
Lemma set_active_registers env args s :
  let s' := final_state (set_active env args s) in
  gr_radio_programs_conf s' = gr_radio_programs_conf s \/
  exists n name code path,
    gr_radio_programs_conf s'
    = <[n := RadioProgramConf.mk name
              (arg_or args "program_args" (PList [""]))
              (arg_or args "program_port" (PInt (default_socket_port s))) code path]>
        (gr_radio_programs_conf s).
Proof.
  pose proof (register_and_start_effects env (arg_or args "program_name" PNone)) as R.
  cbv zeta in R.
  unfold set_active. unfold_monad.
  case_decide as Hs.
  - set (s0 := with_log _ s) in *.
    case_decide as Hgrc.
    + destruct (_convert_grc_to_python _ _ _ s0) as [c s1|e s1] eqn:Hconv;
        apply convert_frame in Hconv; apply session_fields in Hconv; fields;
        destruct Hconv as (F1 & _).
      { specialize (R c (arg_or args "program_args" (PList [""]))
                      (arg_or args "program_port" (PInt (default_socket_port s))) s1).
        destruct R as (_ & [R|(n & path & R)] & _); [left; rewrite R; exact F1|].
        right. exists n, (arg_or args "program_name" PNone), c, path. rewrite R, F1.
        reflexivity. }
      by left.
    + case_decide as Hpy; [by left|].
      specialize (R (arg_or args "program_code" PNone)
                    (arg_or args "program_args" (PList [""]))
                    (arg_or args "program_port" (PInt (default_socket_port s))) s0).
      destruct R as (_ & [R|(n & path & R)] & _); [by left|].
      right. by exists n, (arg_or args "program_name" PNone), (arg_or args "program_code" PNone), path.
  - case_decide as Hp; [|by left].
    match goal with |- context [_init_proxy ?a ?b] =>
      destruct (init_proxy_frame a b) as (l & msg & u & -> & _) end.
    by left.
Qed.

(** A first activation of a ['py'] program whose file can be opened and
    whose process can be started. *)
Lemma set_active_py_starts env args s (n c : string) :
  gr_state s = INACTIVE ->
  arg_or args "program_type" (PStr "grc") = PStr "py" ->
  arg_or args "program_name" PNone = PStr n ->
  arg_or args "program_code" PNone = PStr c ->
  gr_radio_programs_conf s !! n = None ->
  let path := path_join (gr_radio_programs_path s) (n ++ ".py") in
  let pargs := match arg_or args "program_args" (PList [""]) with PList l => l | _ => [] end in
  let tr := (trace s ++ match gr_process s with Some h => [Kill h] | None => [] end)%list in
  (exists l, arg_or args "program_args" (PList [""]) = PList l) ->
  open_w env (fs s) path = None ->
  Popen env tr ("env" :: "python2" :: path :: pargs) = true ->
  exists s',
    set_active env args s = Ok (Some true) s' /\
    trace s' = (tr ++ [Spawn (length tr) ("env" :: "python2" :: path :: pargs)])%list /\
    gr_radio_programs_conf s' !! n
    = Some (RadioProgramConf.mk (PStr n) (arg_or args "program_args" (PList [""]))
              (arg_or args "program_port" (PInt (default_socket_port s))) (PStr c) path).
Proof.
  intros Hs Ht Hn Hc Hfresh path pargs tr [l Hl] Ho Hp. subst pargs tr.
  rewrite Hl in *.
  unfold set_active. unfold_monad. rewrite decide_True by done.
  rewrite Ht, Hn, Hc, Hl. rewrite decide_False by discriminate.
  rewrite decide_False by (intros H; by apply H).
  unfold conf_contains. fields. rewrite Hfresh.
  rewrite bool_decide_eq_false_2 by (by intros [? ?]). cbn [negb].
  unfold _add_program_to_repo, _build_radio_program_dict. unfold_helpers. fields.
  fold path. rewrite Ho. fields.
  unfold _exec_program. unfold_helpers. fields.
  destruct (gr_process_io s), (gr_process s) as [h|]; fields;
    rewrite lookup_insert_eq; cbn [RadioProgramConf.name RadioProgramConf.path];
    rewrite ?app_nil_r in Hp; cbn [app]; fields; rewrite Hp; fields;
    (eexists; split; [reflexivity|]); fields; rewrite ?app_nil_r, lookup_insert_eq; done.
Qed.

(** C10.  On a reachable object, in every state, an argument that is
    missing is the same as that argument given with its default: [None] for
    the name, the list of one empty string for the arguments, ['grc'] for
    the type, 1235 for the port.  What the defaults then do:
    - with the type missing, in [INACTIVE], the flowgraph is compiled: the
      request is never refused as an invalid type, a conversion that raises
      makes [set_active] raise the same exception from the same state, and
      a conversion that returns has run the compiler, which stays on the
      trace;
    - with the name missing, in [INACTIVE], nothing is activated:
      [set_active] raises and no field of the object changes;
    - a registration that the call adds holds the list of one empty string
      as arguments when they are missing, and 1235 as port when it is
      missing;
    - with the arguments missing, every process that the call starts has
      the empty string as its one argument after the path; and such a
      process is started: on an object that holds its output streams, so
      that no log file is opened, activating a ['py'] program that is not
      registered, whose file can be opened and whose process can be
      created, returns [True], and the trace grows by the kill of the old
      handle, if one is held, and the start of exactly that process. *)
Theorem set_active_defaults env args s :
  reachable env s ->
  let name := arg_or args "program_name" PNone in
  let code := arg_or args "program_code" PNone in
  let r := set_active env args s in
  (forall k d,
      In (k, d) [("program_name", PNone); ("program_args", PList [""]);
                 ("program_type", PStr "grc"); ("program_port", PInt 1235)] ->
      args !! k = None ->
      r = set_active env (<[k := d]> args) s) /\
  (args !! "program_type" = None -> gr_state s = INACTIVE ->
   (forall s', r <> Ok None s') /\
   match _convert_grc_to_python env name code (logged INFO "Start new radio program" s) with
   | Raised e s1 => r = Raised e s1
   | Ok _ s1 =>
       trace s1 = (trace s ++ [Run ["grcc"; ("--directory=" ++ gr_radio_programs_path s)%string;
                                    NamedTemporaryFile env (fs s)]])%list /\
       exists tl, trace (final_state r) = (trace s1 ++ tl)%list
   end) /\
  (args !! "program_name" = None -> gr_state s = INACTIVE ->
   arg_or args "program_type" (PStr "grc") = PStr "grc" \/
   arg_or args "program_type" (PStr "grc") = PStr "py" ->
   exists e s', r = Raised e s' /\ session s' = session s) /\
  (forall n c,
      gr_radio_programs_conf s !! n = None ->
      gr_radio_programs_conf (final_state r) !! n = Some c ->
      (args !! "program_args" = None -> RadioProgramConf.args c = PList [""]) /\
      (args !! "program_port" = None -> RadioProgramConf.port c = PInt 1235)) /\
  (args !! "program_args" = None ->
   (forall s', r = Ok (Some true) s' ->
               exists h p, last (trace s') = Some (Spawn h ["env"; "python2"; p; ""])) /\
   (forall n c,
       gr_state s = INACTIVE ->
       is_Some (gr_process_io s) ->
       arg_or args "program_type" (PStr "grc") = PStr "py" ->
       name = PStr n -> code = PStr c ->
       gr_radio_programs_conf s !! n = None ->
       let path := path_join (gr_radio_programs_path s) (n ++ ".py") in
       let tr := (trace s ++ match gr_process s with Some h => [Kill h] | None => [] end)%list in
       open_w env (fs s) path = None ->
       Popen env tr ["env"; "python2"; path; ""] = true ->
       exists s',
         r = Ok (Some true) s' /\
         trace s' = (tr ++ [Spawn (length tr) ["env"; "python2"; path; ""]])%list /\
         gr_radio_programs_conf s' !! n
         = Some (RadioProgramConf.mk (PStr n) (PList [""])
                   (arg_or args "program_port" (PInt 1235)) (PStr c) path))).
Proof.
  intros Hr name code r. destruct (reachable_inv _ _ Hr) as (Hport & _).
  split; [|split; [|split; [|split]]].
  - intros k d Hin Hk. subst r. unfold set_active. unfold_monad.
    rewrite Hport.
    cbn [In] in Hin.
    destruct Hin as [[= <- <-]|[[= <- <-]|[[= <- <-]|[[= <- <-]|[]]]]];
      rewrite (arg_or_insert_same _ _ _ Hk);
      rewrite !arg_or_insert_other by discriminate; reflexivity.
  - intros Ht Hs.
    assert (Hty : arg_or args "program_type" (PStr "grc") = PStr "grc")
      by (unfold arg_or; by rewrite Ht).
    pose proof (register_and_start_effects env name) as R. cbv zeta in R.
    subst r. unfold set_active. unfold_monad.
    rewrite decide_True by done. rewrite decide_True by done.
    fold name code. change (with_log _ s) with (logged INFO "Start new radio program" s).
    destruct (_convert_grc_to_python _ _ _ _) as [v s1|e s1] eqn:E.
    + specialize (R v (arg_or args "program_args" (PList [""]))
                    (arg_or args "program_port" (PInt (default_socket_port s))) s1).
      destruct R as (R1 & _ & R3).
      split; [exact R3|]. split; [|exact R1].
      by apply convert_ok_trace in E.
    + split; [intros; discriminate|reflexivity].
  - intros Hn Hs Ht.
    assert (Hnm : name = PNone) by (unfold name, arg_or; by rewrite Hn).
    subst r. unfold set_active. unfold_monad. rewrite decide_True by done.
    fold name. rewrite Hnm.
    destruct Ht as [Ht|Ht].
    + rewrite decide_True by done.
      destruct (_convert_grc_to_python _ _ _ _) as [v s1|e s1] eqn:E.
      * apply convert_ok_string_name in E as [n E]. discriminate.
      * apply convert_frame in E. eauto.
    + rewrite decide_False by (rewrite Ht; discriminate).
      rewrite decide_False by (intros H; by apply H).
      unfold _add_program_to_repo, _build_radio_program_dict. unfold_helpers. fields.
      eexists _, _; split; reflexivity.
  - intros n c Hfresh Hc.
    pose proof (set_active_registers env args s) as H. cbv zeta in H. fold r in H.
    destruct H as [H|(n' & nm & cd & path & H)]; rewrite H in Hc; [congruence|].
    apply lookup_insert_Some in Hc as [[_ <-]|[_ Hc]]; [|congruence].
    cbn [RadioProgramConf.args RadioProgramConf.port]. unfold arg_or. rewrite Hport.
    split; by intros ->.
  - intros Hk. split.
    + intros s' Ha.
      pose proof (set_active_true_inactive _ _ _ _ Ha) as Hs.
      destruct (set_active_from_inactive env args s Hs) as (_ & _ & H3).
      fold r in H3. rewrite Ha in H3. fields.
      destruct H3 as [[_ H3]|(_ & _ & n & c & l & h & _ & Hl & _ & _ & _ & Ht)].
      { by destruct (H3 s'). }
      unfold arg_or in Hl. rewrite Hk in Hl. injection Hl as <-. eauto.
    + intros n c Hs _ Ht Hn Hc Hfresh path tr Ho Hp.
      pose proof (set_active_py_starts env args s n c Hs Ht Hn Hc Hfresh) as H.
      cbv zeta in H. rewrite Hport in H.
      assert (Hl : arg_or args "program_args" (PList [""]) = PList [""])
        by (unfold arg_or; by rewrite Hk).
      rewrite Hl in H. apply H; [by eexists|done|done].
Qed.

Lemma set_active_defaults_witness :
  (exists s',
      set_active demo_env demo_args demo_stopped = Ok (Some true) s' /\
      trace s' = [Spawn 0 ["env"; "python2"; "/home/u/.wishful/radio/fm.py"; ""];
                  Kill 0; Kill 0;
                  Spawn 3 ["env"; "python2"; "/home/u/.wishful/radio/fm.py"; ""]] /\
      gr_radio_programs_conf s' !! "fm"
      = Some (RadioProgramConf.mk (PStr "fm") (PList [""]) (PInt 1235) (PStr "print(1)")
                "/home/u/.wishful/radio/fm.py")) /\
  set_active demo_env demo_broken_args demo_init
  = Raised XMLSyntaxError (logged INFO "Start new radio program" demo_init).
Proof.
  split.
  - destruct (set_active_defaults demo_env demo_args demo_stopped
                (reachable_step demo_env _ _ demo_running_reachable))
      as (_ & _ & _ & _ & H).
    destruct (H eq_refl) as [_ H'].
    apply (H' "fm" "print(1)"); vm_compute; eauto.
  - destruct (set_active_defaults demo_env demo_broken_args demo_init
                (reachable_init demo_env "/home/u" ∅)) as (_ & H & _).
    destruct (H eq_refl eq_refl) as [_ H'].
    exact H'.
Defined.

Example set_active_defaults_demo :
  trace demo_running = [Spawn 0 ["env"; "python2"; "/home/u/.wishful/radio/fm.py"; ""]] /\
  (RadioProgramConf.port <$> gr_radio_programs_conf demo_running !! "fm") = Some (PInt 1235).
Proof. vm_compute. done. Qed.

(** * Further properties of the module *)

(** ** Registrations and the channel along public operations *)

Lemma step_ok_same s s' : session s' = session s -> step_ok s s'.
Proof.
  intros H. apply session_fields in H.
  destruct H as (H1 & H2 & H3 & H4 & H5 & H6 & H7 & H8 & H9).
  unfold step_ok. split; [done|]. split; [done|]. left. auto.
Qed.

Lemma step_ok_registry s s' : step_ok s s' -> registry_inv s -> registry_inv s'.
Proof.
  intros (Hroot & Hhost & Hcase) (Ih & Iw & Ic).
  unfold registry_inv, registry_wf, channel_bound.
  rewrite Hhost, Hroot. split; [done|].
  destruct Hcase as [(Hconf & Hexec & Hctrl)|(Hctrl & Hconf)].
  - rewrite Hconf, Hexec. split; [done|].
    intros p Hp. destruct Hctrl as [Hctrl|(p' & n & c & Hp' & Hn & Hc & Hport & Hh)].
    + apply Ic. congruence.
    + assert (p' = p) as -> by congruence. exists n, c. by rewrite <- Ih.
  - split; [|intros p Hp; congruence].
    destruct Hconf as [->|[[n ->]|(n & c & Hn & Hp & ->)]]; [done| |].
    + intros n' c' H. apply lookup_delete_Some in H as [_ H]. by apply Iw.
    + intros n' c' H. apply lookup_insert_Some in H as [[<- <-]|[_ H]]; [done|by apply Iw].
Qed.

Lemma exec_program_frame env name pargs s :
  let s' := final_state (_exec_program env name pargs s) in
  gr_radio_programs_path s' = gr_radio_programs_path s /\
  ctrl_socket_host s' = ctrl_socket_host s /\
  gr_radio_programs_conf s' = gr_radio_programs_conf s /\
  ctrl_socket s' = ctrl_socket s.
Proof. unfold _exec_program. unfold_helpers. crunch; done. Qed.

Lemma register_and_start_step env (name code pargs port : pyval) s :
  let m : M (option bool) :=
    registered <- conf_contains name ;;
    (if negb registered then
       path <- _add_program_to_repo env name code ;;
       conf_setitem name (RadioProgramConf.mk name pargs port code path)
     else ret tt) ;;
    started <- _exec_program env name pargs ;;
    ret (Some started) in
  ctrl_socket s = None -> step_ok s (final_state (m s)).
Proof.
  intros m Hc. subst m. unfold_monad.
  destruct (conf_contains name s) as [registered s0|e s0] eqn:Hcc.
  2:{ unfold conf_contains in Hcc. destruct name; simplify_eq. fields.
      by apply step_ok_same. }
  assert (s0 = s) as -> by (unfold conf_contains in Hcc; destruct name; by simplify_eq).
  destruct registered; cbn [negb].
  - pose proof (exec_program_frame env name pargs s) as F. cbv zeta in F.
    destruct (_exec_program env name pargs s) as [b s1|e s1]; fields;
      destruct F as (F1 & F2 & F3 & F4);
      (split; [done|]); (split; [done|]); right; (split; [congruence|]); by left.
  - unfold _add_program_to_repo, _build_radio_program_dict. unfold_helpers.
    destruct name as [|z|n|l0]; fields; try (by apply step_ok_same).
    destruct (open_w env _ _) as [e|]; fields; [by apply step_ok_same|].
    destruct code as [|z|c|l0]; fields;
      try (split; [done|]; split; [done|]; right; split; [done|]; by left).
    match goal with |- context [_exec_program env ?a ?b ?c] =>
      pose proof (exec_program_frame env a b c) as F; cbv zeta in F;
      destruct (_exec_program env a b c) as [b' s1|e s1] end; fields;
      destruct F as (F1 & F2 & F3 & F4);
      (split; [done|]); (split; [done|]); right; (split; [congruence|]);
      right; right; eexists n, _; (split; [|split; [|exact F3]]); reflexivity.
Qed.

Lemma init_proxy_step n s :
  n = gr_exec_name s ->
  step_ok s (final_state (_init_proxy n s)).
Proof.
  intros ->. destruct (init_proxy_frame (gr_exec_name s) s) as (l & msg & u & -> & Hu & Hnew).
  fields. split; [done|]. split; [done|]. left. split; [done|]. split; [done|].
  destruct u as [p|].
  - destruct (Hnew p eq_refl) as [H|(nm & c & H1 & H2 & H3 & H4)]; [by left|].
    right. exists p, nm, c. done.
  - destruct (ctrl_socket s) as [p|] eqn:E; [|by left].
    specialize (Hu p eq_refl). discriminate.
Qed.

Lemma step_ok_trans_fields s s1 s2 :
  step_ok s s1 ->
  gr_radio_programs_path s2 = gr_radio_programs_path s1 ->
  ctrl_socket_host s2 = ctrl_socket_host s1 ->
  gr_radio_programs_conf s2 = gr_radio_programs_conf s1 ->
  gr_exec_name s2 = gr_exec_name s1 ->
  ctrl_socket s2 = ctrl_socket s1 ->
  step_ok s s2.
Proof.
  intros (H1 & H2 & H3) F1 F2 F3 F4 F5. unfold step_ok. by rewrite F1, F2, F3, F4, F5.
Qed.

Lemma step_ok_trans_same s s1 s2 :
  step_ok s s1 -> session s2 = session s1 -> step_ok s s2.
Proof.
  intros (H1 & H2 & H3) H. apply session_fields in H.
  destruct H as (F1 & F2 & F3 & F4 & F5 & F6 & F7 & F8 & F9).
  unfold step_ok. by rewrite F1, F2, F6, F7, F9.
Qed.

Lemma set_active_step env args s :
  session_inv s -> step_ok s (final_state (set_active env args s)).
Proof.
  intros (_ & _ & I3 & _).
  pose proof (register_and_start_step env (arg_or args "program_name" PNone)) as R.
  cbv zeta in R.
  unfold set_active. unfold_monad.
  case_decide as Hs.
  - set (s0 := with_log _ s) in *.
    assert (H0 : session s0 = session s) by reflexivity.
    case_decide as Hgrc.
    + destruct (_convert_grc_to_python _ _ _ s0) as [c s1|e s1] eqn:Hconv;
        apply convert_frame in Hconv; fields.
      2:{ apply step_ok_same. congruence. }
      specialize (R c (arg_or args "program_args" (PList [""]))
                      (arg_or args "program_port" (PInt (default_socket_port s))) s1).
      assert (Hs1 : session s1 = session s) by congruence.
      apply session_fields in Hs1.
      destruct Hs1 as (F1 & F2 & F3 & F4 & F5 & F6 & F7 & F8 & F9).
      destruct R as (R1 & R2 & R3); [rewrite F9; auto|].
      rewrite F6 in R1. rewrite F7 in R2. rewrite ?F1, ?F2, ?F6, ?F7, ?F9 in R3.
      unfold step_ok. done.
    + case_decide as Hpy.
      * fields. by apply step_ok_same.
      * specialize (R (arg_or args "program_code" PNone)
                      (arg_or args "program_args" (PList [""]))
                      (arg_or args "program_port" (PInt (default_socket_port s))) s0).
        apply R. unfold s0. fields. auto.
  - case_decide as Hp.
    + match goal with |- context [_init_proxy ?a ?b] =>
        pose proof (init_proxy_step a b eq_refl) as H;
        destruct (_init_proxy a b) as [[] s1|e s1] end; fields.
      * by apply (step_ok_trans_fields _ s1).
      * done.
    + fields. by apply step_ok_same.
Qed.

Lemma set_inactive_step env n p s :
  step_ok s (final_state (set_inactive env n p s)).
Proof.
  unfold set_inactive, _close_gr_process, _remove_program, is_the_class_dict.
  unfold_helpers.
  crunch; unfold step_ok; fields;
    (split; [done|]); (split; [done|]);
    first [ left; split; [done|]; split; [done|]; by left
          | right; split; [done|]; by left
          | right; split; [done|]; right; left; by eexists ].
Qed.

Lemma set_vars_step env kvs s :
  step_ok s (final_state (gnuradio_set_vars env kvs s)).
Proof.
  unfold gnuradio_set_vars. unfold bind at 1, get at 1.
  case_decide as Hs.
  - unfold bind at 1.
    pose proof (init_proxy_step (gr_exec_name s) s eq_refl) as H.
    destruct (init_proxy_frame (gr_exec_name s) s) as (l & msg & u & E & _).
    rewrite E in H |- *. fields.
    change (for_each kvs _) with (for_each kvs (set_vars_body env)).
    set (s0 := logged l msg (with_ctrl_socket u s)) in *.
    destruct (ctrl_socket s0) as [proxy|] eqn:Hc.
    + destruct (set_loop_connected env proxy kvs s0 Hc) as (s' & -> & H1 & _).
      fields. by apply (step_ok_trans_same _ s0).
    + destruct (set_loop_unconnected env kvs s0 Hc) as (s' & -> & H1 & _).
      fields. by apply (step_ok_trans_same _ s0).
  - unfold_monad. fields. by apply step_ok_same.
Qed.

Lemma get_vars_step env ks s :
  step_ok s (final_state (gnuradio_get_vars env ks s)).
Proof.
  unfold gnuradio_get_vars. unfold bind at 1, get at 1.
  case_decide as Hs.
  - unfold bind at 1.
    pose proof (init_proxy_step (gr_exec_name s) s eq_refl) as H.
    destruct (init_proxy_frame (gr_exec_name s) s) as (l & msg & u & E & _).
    rewrite E in H |- *. fields.
    set (s0 := logged l msg (with_ctrl_socket u s)) in *.
    unfold bind at 1.
    destruct (ctrl_socket s0) as [proxy|] eqn:Hc.
    + destruct (get_loop_connected env proxy ks ∅ s0 Hc) as (s' & -> & H1 & _).
      unfold_monad. fields. apply (step_ok_trans_same _ s0); [done|]. by rewrite <- H1.
    + destruct (get_loop_unconnected env ks ∅ s0 Hc) as (s' & -> & H1 & _).
      unfold_monad. fields. apply (step_ok_trans_same _ s0); [done|]. by rewrite <- H1.
  - unfold_monad. fields. by apply step_ok_same.
Qed.

Lemma after_step env o s : session_inv s -> step_ok s (after env o s).
Proof.
  intros Hinv. unfold after, run. destruct o.
  - pose proof (set_active_step env args s Hinv) as H.
    unfold bind, ret. by destruct (set_active env args s) as [[b|] s'|e s'].
  - pose proof (set_inactive_step env radio_program_name pause s) as H.
    unfold bind, ret. by destruct (set_inactive _ _ _ s).
  - pose proof (set_vars_step env param_key_values_dict s) as H.
    unfold bind, ret. by destruct (gnuradio_set_vars _ _ s).
  - pose proof (get_vars_step env param_key_list s) as H.
    unfold bind, ret. by destruct (gnuradio_get_vars _ _ s) as [[d|] s'|e s'].
  - unfold get_running_radio_program. unfold_monad.
    case_decide; fields; by apply step_ok_same.
Qed.

Lemma init_registry home files : registry_inv (init home files).
Proof.
  unfold registry_inv, registry_wf, channel_bound, init. fields.
  split; [done|]. split; intros ? ?; [intros H; by rewrite lookup_empty in H|discriminate].
Qed.

Lemma reachable_registry env s : reachable env s -> registry_inv s.
Proof.
  induction 1 as [home files|s o Hr IH]; [apply init_registry|].
  apply (step_ok_registry s); [|done].
  apply after_step. by apply (reachable_inv env).
Qed.

(** ** Registered paths *)

Lemma list_ascii_of_string_app (a b : string) :
  list_ascii_of_string (a ++ b) = (list_ascii_of_string a ++ list_ascii_of_string b)%list.
Proof. induction a as [|c a IH]; [done|]. simpl. by f_equal. Qed.

(** The path of a registration is some text followed by [.py]. *)
Lemma path_join_py (a n : string) :
  exists l, list_ascii_of_string (path_join a (n ++ ".py"))
            = (l ++ list_ascii_of_string ".py")%list.
Proof.
  unfold path_join. repeat case_match.
  - exists (list_ascii_of_string n). apply list_ascii_of_string_app.
  - exists (list_ascii_of_string a ++ list_ascii_of_string n)%list.
    by rewrite !list_ascii_of_string_app, <- app_assoc.
  - exists (list_ascii_of_string a ++ list_ascii_of_string "/" ++ list_ascii_of_string n)%list.
    by rewrite !list_ascii_of_string_app, <- !app_assoc.
Qed.

Lemma endswith_py (l : list ascii) (p suffix : string) :
  list_ascii_of_string p = (l ++ list_ascii_of_string ".py")%list ->
  String.length suffix = 3%nat ->
  endswith p suffix = bool_decide (suffix = ".py").
Proof.
  intros Hp Hs. unfold endswith. rewrite Hp, rev_app_distr, length_rev.
  assert (length (list_ascii_of_string suffix) = 3%nat) as ->.
  { clear Hp. revert Hs. generalize 3%nat. induction suffix; intros [|k]; cbn; try done.
    intros [= H]. f_equal. by apply IHsuffix. }
  cbn [list_ascii_of_string rev app take].
  destruct suffix as [|c1 [|c2 [|c3 [|]]]]; try discriminate. cbn.
  apply bool_decide_ext. split; intros H; by simplify_eq.
Qed.

Lemma registered_path_not_grc (a n : string) :
  endswith (path_join a (n ++ ".py")) "grc" = false.
Proof. destruct (path_join_py a n) as [l Hl]. by rewrite (endswith_py l). Qed.

Lemma registered_path_is_py (a n : string) :
  endswith (path_join a (n ++ ".py")) ".py" = true.
Proof. destruct (path_join_py a n) as [l Hl]. by rewrite (endswith_py l). Qed.

Lemma registered_path_not_log (a n : string) :
  path_join a (n ++ ".py") <> "/tmp/gnuradio.log" /\
  path_join a (n ++ ".py") <> "/tmp/gnuradio-err.log".
Proof.
  pose proof (registered_path_is_py a n) as H.
  split; intros E; rewrite E in H; vm_compute in H; discriminate.
Qed.

(** ** The life cycle of reachable objects *)

Lemma reachable_root env s :
  reachable env s ->
  exists home, gr_radio_programs_path s = path_join (path_join home ".wishful") "radio".
Proof.
  induction 1 as [home files|s o Hr [home IH]]; [by exists home|].
  exists home. destruct (after_step env o s (reachable_inv _ _ Hr)) as (H & _). by rewrite H.
Qed.

(** X1.  Whatever public operations were called, and whether they returned
    or raised: the state is never [STOPPED]; a control channel exists only
    in [RUNNING] or [PAUSED]; and in those two states the active name is a
    registered string and a process handle is held. *)
Theorem reachable_lifecycle env s :
  reachable env s ->
  gr_state s <> STOPPED /\
  (forall p, ctrl_socket s = Some p -> gr_state s = RUNNING \/ gr_state s = PAUSED) /\
  (gr_state s = RUNNING \/ gr_state s = PAUSED ->
   exists n c h, gr_exec_name s = PStr n /\
                 gr_radio_programs_conf s !! n = Some c /\
                 gr_process s = Some h).
Proof.
  intros Hr. destruct (reachable_inv _ _ Hr) as (_ & I2 & I3 & I4).
  split; [done|]. split.
  - intros p Hp. destruct (gr_state s) eqn:E; auto; [|done].
    rewrite I3 in Hp by done. discriminate.
  - intros Hs. destruct (I4 Hs) as (n & Hn & [c Hc] & [h Hh]). by exists n, c, h.
Qed.

Lemma reachable_lifecycle_witness :
  gr_state demo_running <> STOPPED /\
  (forall p, ctrl_socket demo_running = Some p ->
             gr_state demo_running = RUNNING \/ gr_state demo_running = PAUSED) /\
  (gr_state demo_running = RUNNING \/ gr_state demo_running = PAUSED ->
   exists n c h, gr_exec_name demo_running = PStr n /\
                 gr_radio_programs_conf demo_running !! n = Some c /\
                 gr_process demo_running = Some h).
Proof. apply (reachable_lifecycle demo_env). exact demo_running_reachable. Defined.

(** X2.  Every registration of a reachable object is stored under its own
    name, and its path is exactly [os.path.join] of the repository directory
    and [<name>.py], the repository directory being the [.wishful/radio] of
    the home the object was created with.  This is not containment in the
    repository: [os.path.join] gives back [<name>.py] alone when the name
    starts with [/], as the example after the statement shows. *)
Theorem reachable_registrations_well_formed env s n c :
  reachable env s ->
  gr_radio_programs_conf s !! n = Some c ->
  RadioProgramConf.name c = PStr n /\
  RadioProgramConf.path c = path_join (gr_radio_programs_path s) (n ++ ".py") /\
  exists home, gr_radio_programs_path s = path_join (path_join home ".wishful") "radio".
Proof.
  intros Hr Hc. destruct (reachable_registry _ _ Hr) as (_ & Hw & _).
  destruct (Hw n c Hc) as [H1 H2]. split; [done|]. split; [done|].
  by apply (reachable_root env).
Qed.

Lemma reachable_registrations_well_formed_witness :
  RadioProgramConf.name
    (RadioProgramConf.mk (PStr "fm") (PList [""]) (PInt 1235) (PStr "print(1)")
       "/home/u/.wishful/radio/fm.py") = PStr "fm" /\
  RadioProgramConf.path
    (RadioProgramConf.mk (PStr "fm") (PList [""]) (PInt 1235) (PStr "print(1)")
       "/home/u/.wishful/radio/fm.py")
  = path_join (gr_radio_programs_path demo_running) ("fm" ++ ".py") /\
  exists home,
    gr_radio_programs_path demo_running = path_join (path_join home ".wishful") "radio".
Proof.
  apply (reachable_registrations_well_formed demo_env demo_running "fm").
  - exact demo_running_reachable.
  - vm_compute. reflexivity.
Defined.

Example absolute_name_leaves_repository :
  let s := after demo_env (Activate (<["program_name" := PStr "/tmp/x"]> demo_args)) demo_init in
  (RadioProgramConf.path <$> gr_radio_programs_conf s !! "/tmp/x") = Some "/tmp/x.py" /\
  fs s !! "/tmp/x.py" = Some "print(1)".
Proof. vm_compute. done. Qed.

(** X3.  The control channel of a reachable object, when there is one, is
    a proxy for the local host at the port registered for the active
    program. *)
Theorem reachable_channel_bound env s p :
  reachable env s ->
  ctrl_socket s = Some p ->
  sp_host p = "localhost" /\
  exists n c, gr_exec_name s = PStr n /\
              gr_radio_programs_conf s !! n = Some c /\
              RadioProgramConf.port c = PInt (sp_port p).
Proof.
  intros Hr Hp. destruct (reachable_registry _ _ Hr) as (_ & _ & Hb).
  destruct (Hb p Hp) as (n & c & H1 & H2 & H3 & H4). split; [done|]. by exists n, c.
Qed.

Lemma demo_connected_reachable : reachable demo_env demo_connected.
Proof. apply reachable_step, demo_running_reachable. Qed.

Lemma reachable_channel_bound_witness :
  sp_host {| sp_host := "localhost"; sp_port := 1235 |} = "localhost" /\
  exists n c, gr_exec_name demo_connected = PStr n /\
              gr_radio_programs_conf demo_connected !! n = Some c /\
              RadioProgramConf.port c = PInt (sp_port {| sp_host := "localhost"; sp_port := 1235 |}).
Proof.
  apply (reachable_channel_bound demo_env demo_connected).
  - exact demo_connected_reachable.
  - vm_compute. reflexivity.
Defined.

(** ** Connecting *)



(** ** Starting *)

(** X5.  On an object that holds its output streams, so that the two log
    files are not opened again, [_exec_program] never raises.  When it
    returns [False] the state is what it was, the handle, the streams and
    the active name are all cleared and no process was started; when it
    returns [True] the state is [RUNNING], the active name is the one given
    and a handle and the streams are held.  A name that is not registered
    gives [False]. *)
Theorem exec_program_reports_start env (name pargs : pyval) (s : GnuRadioModule) :
  is_Some (gr_process_io s) ->
  exists b s', _exec_program env name pargs s = Ok b s' /\
    (b = false ->
     gr_state s' = gr_state s /\ gr_process s' = None /\ gr_process_io s' = None /\
     gr_exec_name s' = PNone /\
     forall h argv, Spawn h argv ∈ trace s' -> Spawn h argv ∈ trace s) /\
    (b = true ->
     gr_state s' = RUNNING /\ gr_exec_name s' = name /\
     is_Some (gr_process s') /\ is_Some (gr_process_io s')) /\
    ((forall n, name = PStr n -> gr_radio_programs_conf s !! n = None) -> b = false).
Proof.
  intros [io Hio]. unfold _exec_program. unfold_helpers. rewrite Hio.
  crunch; (eexists _, _; split; [reflexivity|]); fields;
    (split; [intros ?; try discriminate|split; [intros ?; try discriminate|]]).
  all: try (repeat split; try done; eauto; fail).
  all: try (intros Hn; first [done | specialize (Hn _ eq_refl); congruence]).
  all: repeat split; try done;
    intros h argv Hin; rewrite ?elem_of_app, ?list_elem_of_singleton in Hin;
    destruct Hin as [Hin|Hin]; [done|discriminate].
Qed.

Lemma exec_program_reports_start_witness :
  exists b s', _exec_program demo_env (PStr "fm") (PList [""]) demo_running = Ok b s' /\
    (b = false ->
     gr_state s' = gr_state demo_running /\ gr_process s' = None /\ gr_process_io s' = None /\
     gr_exec_name s' = PNone /\
     forall h argv, Spawn h argv ∈ trace s' -> Spawn h argv ∈ trace demo_running) /\
    (b = true ->
     gr_state s' = RUNNING /\ gr_exec_name s' = PStr "fm" /\
     is_Some (gr_process s') /\ is_Some (gr_process_io s')) /\
    ((forall n, PStr "fm" = PStr n -> gr_radio_programs_conf demo_running !! n = None) ->
     b = false).
Proof. apply exec_program_reports_start. vm_compute. eauto. Defined.

Example exec_program_restart_demo :
  exists s', _exec_program demo_env (PStr "fm") (PList [""]) demo_running = Ok true s' /\
    trace s' = [Spawn 0 ["env"; "python2"; "/home/u/.wishful/radio/fm.py"; ""]; Kill 0;
                Spawn 2 ["env"; "python2"; "/home/u/.wishful/radio/fm.py"; ""]].
Proof. eexists. split; vm_compute; reflexivity. Qed.

(** ** The repository *)

(** [_add_program_to_repo] of a string name and string code, when the file
    can be opened, writes the code to it and returns its path. *)
Lemma add_program_writes_file env (n c : string) (s : GnuRadioModule) :
  let path := path_join (gr_radio_programs_path s) (n ++ ".py") in
  open_w env (fs s) path = None ->
  _add_program_to_repo env (PStr n) (PStr c) s
  = Ok path (with_fs (<[path := c]> (fs s))
               (logged INFO "Add radio program %s to local repository" s)).
Proof.
  intros path Ho. unfold _add_program_to_repo, _build_radio_program_dict. unfold_helpers.
  fields. fold path. by rewrite Ho.
Qed.

(** When the file cannot be opened, the exception of [open] leaves
    [_add_program_to_repo] with nothing written. *)
Lemma add_program_unopenable env (n : string) (code : pyval) (s : GnuRadioModule) e :
  open_w env (fs s) (path_join (gr_radio_programs_path s) (n ++ ".py")) = Some e ->
  _add_program_to_repo env (PStr n) code s
  = Raised e (logged INFO "Add radio program %s to local repository" s).
Proof.
  intros Ho. unfold _add_program_to_repo, _build_radio_program_dict. unfold_helpers.
  fields. by rewrite Ho.
Qed.

(** X6.  When the file [<name>.py] can be opened for writing and the code
    is not a string, [_add_program_to_repo] raises [TypeError] at the write,
    after the file was opened: the file is left there, empty, whatever it
    held before.  When the file cannot be opened, the exception of [open]
    is what leaves the method, and the files are as they were. *)
Theorem add_program_failed_write_truncates env (n : string) (code : pyval)
    (s : GnuRadioModule) :
  (forall c, code <> PStr c) ->
  let path := path_join (gr_radio_programs_path s) (n ++ ".py") in
  exists s',
    _add_program_to_repo env (PStr n) code s
    = Raised (match open_w env (fs s) path with Some e => e | None => TypeError end) s' /\
    fs s' = match open_w env (fs s) path with
            | Some _ => fs s
            | None => <[path := ""]> (fs s)
            end /\
    session s' = session s.
Proof.
  intros H path. unfold _add_program_to_repo, _build_radio_program_dict. unfold_helpers.
  fields. fold path. destruct (open_w env (fs s) path) as [e|]; fields.
  - eexists. split; [reflexivity|]. done.
  - destruct code as [|z|c|l]; try (eexists; split; [reflexivity|]; fields; done).
    by destruct (H c).
Qed.

Lemma add_program_failed_write_truncates_witness :
  exists s', _add_program_to_repo demo_env (PStr "fm") PNone demo_running
             = Raised TypeError s' /\
    fs s' = <["/home/u/.wishful/radio/fm.py" := ""]> (fs demo_running) /\
    session s' = session demo_running.
Proof.
  apply (add_program_failed_write_truncates demo_env "fm" PNone demo_running).
  intros c. discriminate.
Defined.

Example add_program_unopenable_demo :
  _add_program_to_repo demo_env (PStr "nodir/fm") (PStr "print(1)") demo_init
  = Raised FileNotFoundError
      (logged INFO "Add radio program %s to local repository" demo_init).
Proof. vm_compute. reflexivity. Qed.

(** A removal of a registered name, in general: the companion file is
    looked for only when the path ends in [grc]. *)
Lemma remove_program_registered_spec (s : GnuRadioModule) (n : string) c :
  gr_radio_programs_conf s !! n = Some c ->
  endswith (RadioProgramConf.path c) "grc" = false ->
  exists s', _remove_program (PStr n) s = Ok tt s' /\
    gr_radio_programs_conf s' = delete n (gr_radio_programs_conf s) /\
    fs s' = delete (RadioProgramConf.path c) (fs s) /\
    log s' = log s /\ trace s' = trace s /\
    gr_state s' = gr_state s /\ gr_exec_name s' = gr_exec_name s /\
    gr_process s' = gr_process s /\ gr_process_io s' = gr_process_io s /\
    ctrl_socket s' = ctrl_socket s.
Proof.
  intros Hc He. unfold _remove_program. unfold_helpers.
  rewrite Hc. rewrite bool_decide_eq_true_2 by eauto. cbn [negb]. rewrite Hc.
  rewrite He.
  destruct (bool_decide (is_Some (fs s !! RadioProgramConf.path c))) eqn:Hf;
    fields; rewrite Hc; (eexists; split; [reflexivity|]); fields; repeat split; try done.
  apply bool_decide_eq_false in Hf. rewrite <- eq_None_not_Some in Hf.
  by rewrite delete_id.
Qed.

(** X7.  On a reachable object, [_remove_program] of a registered name
    returns, drops that registration and deletes that program's file, and
    nothing else: the other registrations, the other files, the log and the
    trace are as before.  The branch for a companion of a [grc] file is
    never taken, because every registered path ends in [.py]. *)
Theorem remove_program_deletes_one_file env (s : GnuRadioModule) (n : string) c :
  reachable env s ->
  gr_radio_programs_conf s !! n = Some c ->
  exists s', _remove_program (PStr n) s = Ok tt s' /\
    gr_radio_programs_conf s' = delete n (gr_radio_programs_conf s) /\
    fs s' = delete (path_join (gr_radio_programs_path s) (n ++ ".py")) (fs s) /\
    log s' = log s /\ trace s' = trace s /\
    gr_state s' = gr_state s /\ gr_exec_name s' = gr_exec_name s /\
    gr_process s' = gr_process s /\ ctrl_socket s' = ctrl_socket s.
Proof.
  intros Hr Hc. destruct (reachable_registry _ _ Hr) as (_ & Hw & _).
  destruct (Hw n c Hc) as [_ Hp].
  destruct (remove_program_registered_spec s n c Hc) as (s' & E & H).
  { rewrite Hp. apply registered_path_not_grc. }
  exists s'. rewrite Hp in H. split; [done|]. tauto.
Qed.

Lemma remove_program_deletes_one_file_witness :
  exists s', _remove_program (PStr "fm") demo_running = Ok tt s' /\
    gr_radio_programs_conf s' = delete "fm" (gr_radio_programs_conf demo_running) /\
    fs s' = delete (path_join (gr_radio_programs_path demo_running) ("fm" ++ ".py"))
              (fs demo_running) /\
    log s' = log demo_running /\ trace s' = trace demo_running /\
    gr_state s' = gr_state demo_running /\ gr_exec_name s' = gr_exec_name demo_running /\
    gr_process s' = gr_process demo_running /\ ctrl_socket s' = ctrl_socket demo_running.
Proof.
  apply (remove_program_deletes_one_file demo_env demo_running "fm"
           (RadioProgramConf.mk (PStr "fm") (PList [""]) (PInt 1235) (PStr "print(1)")
              "/home/u/.wishful/radio/fm.py")).
  - exact demo_running_reachable.
  - vm_compute. reflexivity.
Defined.

(** ** Converting *)

(** X8.  When [_convert_grc_to_python] returns, the name and the code were
    strings and the code parsed.  The compiler was run once, on the files
    as they were plus the temporary file holding the flowgraph renamed to
    the program; the result is the text that the output file
    [os.path.join(repository, name + '.py')] held after that run (or, when
    the run failed, in the files as they were before it), that file has
    been removed, and no field of the object has changed. *)
Theorem convert_returns_and_removes_output env (name code v : pyval) (s s' : GnuRadioModule) :
  _convert_grc_to_python env name code s = Ok v s' ->
  exists n text doc content,
    name = PStr n /\ code = PStr text /\ etree_fromstring env text = Some doc /\
    let out := path_join (gr_radio_programs_path s) (n ++ ".py") in
    let tmp := NamedTemporaryFile env (fs s) in
    let argv := ["grcc"; "--directory=" ++ gr_radio_programs_path s; tmp] in
    let staged := <[tmp := etree_tostring env (renamed doc n)]> (fs s) in
    let files := match check_call env argv staged with Some f => f | None => staged end in
    files !! out = Some content /\
    v = PStr content /\
    fs s' = delete out files /\
    trace s' = (trace s ++ [Run argv])%list /\
    session s' = session s.
Proof.
  unfold _convert_grc_to_python. unfold_helpers. unfold session, renamed.
  destruct code as [|z|text|l]; try discriminate.
  destruct (etree_fromstring env text) as [doc|] eqn:Hdoc; try discriminate.
  destruct doc as [ks vs]. fields. cbn [block_param_keys block_param_values].
  destruct ks as [|k ks]; try discriminate. cbn [head].
  destruct (decide (k = Some "id")) as [->|Hk].
  - destruct vs as [|v0 vs]; try discriminate.
    destruct name as [|z|n|l]; try discriminate.
    cbn [block_param_keys block_param_values tail]. fields.
    destruct (check_call env _ _) as [f|] eqn:Hcc; fields;
      destruct (_ !! path_join _ _) as [content|] eqn:Hout; try discriminate;
      intros [= <- <-]; fields;
      exists n, text, {| block_param_keys := Some "id" :: ks; block_param_values := v0 :: vs |},
             content;
      cbn [block_param_keys block_param_values head tail];
      rewrite Hdoc, decide_True by done; cbn zeta; rewrite Hcc; done.
  - destruct name as [|z|n|l]; try discriminate. fields.
    destruct (check_call env _ _) as [f|] eqn:Hcc; fields;
      destruct (_ !! path_join _ _) as [content|] eqn:Hout; try discriminate;
      intros [= <- <-]; fields;
      exists n, text, {| block_param_keys := k :: ks; block_param_values := vs |}, content;
      cbn [block_param_keys block_param_values head tail];
      rewrite Hdoc, decide_False by congruence; cbn zeta; rewrite Hcc; done.
Qed.

Lemma convert_returns_and_removes_output_witness :
  let s' := final_state (_convert_grc_to_python demo_env_grcc (PStr "fm") (PStr "<flow_graph/>")
                           demo_init) in
  exists n text doc content,
    PStr "fm" = PStr n /\ PStr "<flow_graph/>" = PStr text /\
    etree_fromstring demo_env_grcc text = Some doc /\
    let out := path_join (gr_radio_programs_path demo_init) (n ++ ".py") in
    let tmp := NamedTemporaryFile demo_env_grcc (fs demo_init) in
    let argv := ["grcc"; "--directory=" ++ gr_radio_programs_path demo_init; tmp] in
    let staged := <[tmp := etree_tostring demo_env_grcc (renamed doc n)]> (fs demo_init) in
    let files := match check_call demo_env_grcc argv staged with
                 | Some f => f
                 | None => staged
                 end in
    files !! out = Some content /\
    PStr "print('generated')" = PStr content /\
    fs s' = delete out files /\
    trace s' = (trace demo_init ++ [Run argv])%list /\
    session s' = session demo_init.
Proof.
  apply (convert_returns_and_removes_output demo_env_grcc (PStr "fm") (PStr "<flow_graph/>")).
  vm_compute. reflexivity.
Defined.

Example convert_demo :
  exists s', _convert_grc_to_python demo_env_grcc (PStr "fm") (PStr "<flow_graph/>") demo_init
             = Ok (PStr "print('generated')") s' /\
    fs s' = {[ "/tmp/tmpgrc0" := "<flow_graph/>" ]} /\
    trace s' = [Run ["grcc"; "--directory=/home/u/.wishful/radio"; "/tmp/tmpgrc0"]].
Proof. eexists. split; [vm_compute; reflexivity|]. split; vm_compute; reflexivity. Qed.

(** X9.  A compiler run that fails is caught and logged, and the
    conversion then reads whatever is at the output path: when an older
    output file is there, its text is returned as the result of the
    conversion and the file is removed. *)
Theorem convert_stale_output_masks_failure env (n text old : string) (s : GnuRadioModule)
    (doc : xmldoc) :
  let py := path_join (gr_radio_programs_path s) (n ++ ".py") in
  let tmp := NamedTemporaryFile env (fs s) in
  etree_fromstring env text = Some doc ->
  (exists k ks, block_param_keys doc = k :: ks /\
                (k = Some "id" -> block_param_values doc <> [])) ->
  tmp <> py ->
  fs s !! py = Some old ->
  (forall content,
      check_call env ["grcc"; "--directory=" ++ gr_radio_programs_path s; tmp]
        (<[tmp := content]> (fs s)) = None) ->
  exists s', _convert_grc_to_python env (PStr n) (PStr text) s = Ok (PStr old) s' /\
    fs s' !! py = None /\
    last (log s') = Some (INFO, "could not execute grcc compiler").
Proof.
  intros py tmp Hdoc (k & ks & Hk & Hv) Htmp Hold Hfail. subst py tmp.
  unfold _convert_grc_to_python. unfold_helpers. rewrite Hdoc, Hk.
  destruct (decide (k = Some "id")) as [Hid|Hid].
  - destruct (block_param_values doc) as [|v vs] eqn:Hvs; [by destruct (Hv Hid)|].
    fields. rewrite Hfail. fields.
    rewrite lookup_insert_ne by done. rewrite Hold.
    eexists. split; [reflexivity|]. fields. split; [apply lookup_delete_eq|].
    by rewrite last_snoc.
  - fields. rewrite Hfail. fields.
    rewrite lookup_insert_ne by done. rewrite Hold.
    eexists. split; [reflexivity|]. fields. split; [apply lookup_delete_eq|].
    by rewrite last_snoc.
Qed.

Lemma convert_stale_output_masks_failure_witness :
  exists s', _convert_grc_to_python demo_env (PStr "fm") (PStr "<flow_graph/>") demo_stale_init
             = Ok (PStr "print('old')") s' /\
    fs s' !! path_join (gr_radio_programs_path demo_stale_init) ("fm" ++ ".py") = None /\
    last (log s') = Some (INFO, "could not execute grcc compiler").
Proof.
  apply (convert_stale_output_masks_failure demo_env "fm" "<flow_graph/>" "print('old')"
           demo_stale_init
           {| block_param_keys := [Some "id"]; block_param_values := [Some "top_block"] |}).
  - reflexivity.
  - exists (Some "id"), []. split; [reflexivity|]. intros _. discriminate.
  - vm_compute. discriminate.
  - vm_compute. reflexivity.
  - intros content. reflexivity.
Defined.

(** ** Activating *)

(** X10.  In [INACTIVE], a [program_type] that is neither ['grc'] nor ['py']
    is refused before anything else is looked at: [set_active] returns
    [None] and only the log has grown, by the start line and the error. *)
Theorem invalid_program_type_is_refused env (args : gmap string pyval) (s : GnuRadioModule) :
  gr_state s = INACTIVE ->
  arg_or args "program_type" (PStr "grc") <> PStr "grc" ->
  arg_or args "program_type" (PStr "grc") <> PStr "py" ->
  set_active env args s
  = Ok None (logged ERROR "program_type must be either 'grc' or 'py' -> received %s"
               (logged INFO "Start new radio program" s)).
Proof.
  intros Hs H1 H2. unfold set_active. unfold_monad.
  rewrite decide_True by done. rewrite decide_False by done.
  by rewrite decide_True by done.
Qed.

Lemma invalid_program_type_is_refused_witness :
  set_active demo_env (<["program_type" := PStr "exe"]> demo_args) demo_init
  = Ok None (logged ERROR "program_type must be either 'grc' or 'py' -> received %s"
               (logged INFO "Start new radio program" demo_init)).
Proof.
  apply invalid_program_type_is_refused.
  - reflexivity.
  - vm_compute. discriminate.
  - vm_compute. discriminate.
Defined.

(** X11.  From [INACTIVE], [set_active] returns [True] exactly when it
    leaves the state [RUNNING]; whenever it returns anything else or
    raises, the state is still [INACTIVE]. *)
Theorem set_active_true_iff_running env (args : gmap string pyval) (s : GnuRadioModule) :
  gr_state s = INACTIVE ->
  let r := set_active env args s in
  ((exists s', r = Ok (Some true) s') <-> gr_state (final_state r) = RUNNING) /\
  (gr_state (final_state r) = RUNNING \/ gr_state (final_state r) = INACTIVE).
Proof.
  intros Hs r. subst r.
  destruct (set_active_from_inactive env args s Hs) as (_ & _ & H).
  destruct H as [[H1 H2]|(H1 & H2 & _)].
  - split; [|by right]. split.
    + intros [s' E]. by destruct (H2 s').
    + rewrite H1. discriminate.
  - split; [|by left]. split; [done|]. intros _. eauto.
Qed.

Lemma set_active_true_iff_running_witness :
  let r := set_active demo_env demo_args demo_init in
  ((exists s', r = Ok (Some true) s') <-> gr_state (final_state r) = RUNNING) /\
  (gr_state (final_state r) = RUNNING \/ gr_state (final_state r) = INACTIVE).
Proof. apply set_active_true_iff_running. reflexivity. Defined.

(** The files [_exec_program] may create are the two logs. *)
Lemma exec_program_fs env name pargs s p :
  p <> "/tmp/gnuradio.log" -> p <> "/tmp/gnuradio-err.log" ->
  fs (final_state (_exec_program env name pargs s)) !! p = fs s !! p.
Proof.
  intros H1 H2. unfold _exec_program. unfold_helpers.
  crunch; rewrite ?lookup_insert_ne by done; done.
Qed.

(** X12.  In [INACTIVE], activating a ['py'] program whose name is a string
    not yet registered, with a string as code, when the file
    [os.path.join(repository, name + '.py')] can be opened for writing:
    the program is registered under its name with the arguments, port and
    code of the call, and its file holds the code, however the start that
    follows ends.  A failed start does not undo the registration: the
    object is [RUNNING] with the name active when [True] is returned, and
    [INACTIVE], still with the registration, otherwise.  On an object that
    holds its output streams, so that no log file is opened, [set_active]
    returns a boolean. *)
Theorem activation_registers_program env (args : gmap string pyval) (s : GnuRadioModule)
    (n c : string) :
  gr_state s = INACTIVE ->
  arg_or args "program_type" (PStr "grc") = PStr "py" ->
  arg_or args "program_name" PNone = PStr n ->
  arg_or args "program_code" PNone = PStr c ->
  gr_radio_programs_conf s !! n = None ->
  let path := path_join (gr_radio_programs_path s) (n ++ ".py") in
  open_w env (fs s) path = None ->
  let r := set_active env args s in
  let s' := final_state r in
  gr_radio_programs_conf s'
  = <[n := RadioProgramConf.mk (PStr n) (arg_or args "program_args" (PList [""]))
            (arg_or args "program_port" (PInt (default_socket_port s))) (PStr c) path]>
      (gr_radio_programs_conf s) /\
  fs s' !! path = Some c /\
  (r = Ok (Some true) s' /\ gr_state s' = RUNNING /\ gr_exec_name s' = PStr n \/
   (forall s1, r <> Ok (Some true) s1) /\ gr_state s' = INACTIVE) /\
  (is_Some (gr_process_io s) -> exists b, r = Ok (Some b) s').
Proof.
  intros Hs Ht Hn Hc Hfresh path Ho r s'. subst s' r.
  unfold set_active. unfold_monad. rewrite decide_True by done.
  rewrite Ht, Hn, Hc. rewrite decide_False by discriminate.
  rewrite decide_False by (intros H; by apply H).
  unfold conf_contains. fields. rewrite Hfresh.
  rewrite bool_decide_eq_false_2 by (by intros [? ?]). cbn [negb].
  unfold _add_program_to_repo, _build_radio_program_dict. unfold_helpers. fields.
  fold path. rewrite Ho.
  match goal with |- context [_exec_program env ?a ?b ?s0] =>
    destruct (exec_program_spec env a b s0) as (b' & s1 & E & Hconf & _ & _ & Hcase);
    pose proof (exec_program_fs env a b s0 path) as Hfs;
    rewrite E in Hfs |- * end.
  fields. split; [done|].
  destruct (registered_path_not_log (gr_radio_programs_path s) n) as [P1 P2].
  rewrite Hfs by done. rewrite lookup_insert_eq. split; [done|].
  split; [|by eauto].
  destruct Hcase as [(-> & Hst & _)|(-> & Hst & n' & c' & l & h & [= <-] & _ & _ & He & _)].
  - right. split; [intros; discriminate|congruence].
  - left. done.
Qed.

Lemma activation_registers_program_witness :
  let r := set_active demo_env_no_start demo_args demo_stopped in
  let s' := final_state r in
  gr_radio_programs_conf s'
  = <["fm" := RadioProgramConf.mk (PStr "fm") (arg_or demo_args "program_args" (PList [""]))
            (arg_or demo_args "program_port" (PInt (default_socket_port demo_stopped)))
            (PStr "print(1)")
            (path_join (gr_radio_programs_path demo_stopped) ("fm" ++ ".py"))]>
      (gr_radio_programs_conf demo_stopped) /\
  fs s' !! path_join (gr_radio_programs_path demo_stopped) ("fm" ++ ".py") = Some "print(1)" /\
  (r = Ok (Some true) s' /\ gr_state s' = RUNNING /\ gr_exec_name s' = PStr "fm" \/
   (forall s1, r <> Ok (Some true) s1) /\ gr_state s' = INACTIVE) /\
  (is_Some (gr_process_io demo_stopped) -> exists b, r = Ok (Some b) s').
Proof.
  apply (activation_registers_program demo_env_no_start demo_args demo_stopped "fm" "print(1)").
  - reflexivity.
  - vm_compute. reflexivity.
  - vm_compute. reflexivity.
  - vm_compute. reflexivity.
  - vm_compute. reflexivity.
  - vm_compute. reflexivity.
Defined.

Example stopped_object_holds_streams :
  gr_state demo_stopped = INACTIVE /\ is_Some (gr_process_io demo_stopped) /\
  gr_radio_programs_conf demo_stopped = ∅.
Proof. vm_compute. eauto. Qed.

Example failed_start_keeps_registration_demo :
  exists s', set_active demo_env_no_start demo_args demo_init = Ok (Some false) s' /\
             gr_state s' = INACTIVE /\ is_Some (gr_radio_programs_conf s' !! "fm") /\
             gr_process s' = None /\ gr_process_io s' = None /\ trace s' = [].
Proof. eexists. split; [vm_compute; reflexivity|]. vm_compute. repeat split; eauto. Qed.

(** X22.  In [INACTIVE], activating a ['py'] program whose name is a string
    not yet registered, when the file [os.path.join(repository, name +
    '.py')] cannot be opened for writing: the exception of [open] leaves
    [set_active], nothing is registered, no file is written and no process
    is started or killed. *)
Theorem unopenable_file_aborts_activation env (args : gmap string pyval)
    (s : GnuRadioModule) (n : string) (e : exn) :
  gr_state s = INACTIVE ->
  arg_or args "program_type" (PStr "grc") = PStr "py" ->
  arg_or args "program_name" PNone = PStr n ->
  gr_radio_programs_conf s !! n = None ->
  open_w env (fs s) (path_join (gr_radio_programs_path s) (n ++ ".py")) = Some e ->
  exists s',
    set_active env args s = Raised e s' /\
    session s' = session s /\ fs s' = fs s /\ trace s' = trace s.
Proof.
  intros Hs Ht Hn Hfresh Ho.
  unfold set_active. unfold_monad. rewrite decide_True by done.
  rewrite Ht, Hn. rewrite decide_False by discriminate.
  rewrite decide_False by (intros H; by apply H).
  unfold conf_contains. fields. rewrite Hfresh.
  rewrite bool_decide_eq_false_2 by (by intros [? ?]). cbn [negb].
  rewrite (add_program_unopenable env n _ _ e) by exact Ho.
  eexists. split; [reflexivity|]. done.
Qed.

Lemma unopenable_file_aborts_activation_witness :
  exists s',
    set_active demo_env (<["program_name" := PStr "nodir/fm"]> demo_args) demo_init
    = Raised FileNotFoundError s' /\
    session s' = session demo_init /\ fs s' = fs demo_init /\ trace s' = trace demo_init.
Proof.
  apply (unopenable_file_aborts_activation demo_env _ demo_init "nodir/fm").
  - reflexivity.
  - vm_compute. reflexivity.
  - vm_compute. reflexivity.
  - reflexivity.
  - vm_compute. reflexivity.
Defined.

(** X13.  In [INACTIVE], activating a ['py'] program whose name is already
    registered leaves the registration as it is: the code and the port of
    the call are not stored and nothing is written to the repository.  A
    process that is started runs the registered file with the arguments of
    the call. *)
Theorem reactivation_keeps_registration env (args : gmap string pyval) (s : GnuRadioModule)
    (n : string) (c0 : RadioProgramConf.t) :
  gr_state s = INACTIVE ->
  arg_or args "program_type" (PStr "grc") = PStr "py" ->
  arg_or args "program_name" PNone = PStr n ->
  gr_radio_programs_conf s !! n = Some c0 ->
  exists b s',
    set_active env args s = Ok (Some b) s' /\
    gr_radio_programs_conf s' = gr_radio_programs_conf s /\
    (forall p, p <> "/tmp/gnuradio.log" -> p <> "/tmp/gnuradio-err.log" ->
               fs s' !! p = fs s !! p) /\
    (b = true ->
     exists l h, arg_or args "program_args" (PList [""]) = PList l /\
       last (trace s')
       = Some (Spawn h ("env" :: "python2" :: RadioProgramConf.path c0 :: l))).
Proof.
  intros Hs Ht Hn Hc.
  unfold set_active. unfold_monad. rewrite decide_True by done.
  rewrite Ht, Hn. rewrite decide_False by discriminate.
  rewrite decide_False by (intros H; by apply H).
  unfold conf_contains. fields. rewrite Hc.
  rewrite bool_decide_eq_true_2 by eauto. cbn [negb].
  match goal with |- context [_exec_program env ?a ?b ?s0] =>
    destruct (exec_program_spec env a b s0) as (b' & s1 & E & Hconf & _ & _ & Hcase);
    pose proof (exec_program_fs env a b s0) as Hfs;
    rewrite E in Hfs |- * end.
  fields. exists b', s1. split; [done|]. split; [done|]. split; [done|].
  intros ->. destruct Hcase as [(? & _)|(_ & _ & n' & c' & l & h & [= <-] & Hl & Hc' & _ & _ & Ht')];
    [discriminate|].
  fields. rewrite Hc in Hc'. injection Hc' as <-. by exists l, h.
Qed.

Lemma reactivation_keeps_registration_witness :
  exists b s',
    set_active demo_env (<["program_code" := PStr "print(2)"]> demo_args) demo_failed_start
    = Ok (Some b) s' /\
    gr_radio_programs_conf s' = gr_radio_programs_conf demo_failed_start /\
    (forall p, p <> "/tmp/gnuradio.log" -> p <> "/tmp/gnuradio-err.log" ->
               fs s' !! p = fs demo_failed_start !! p) /\
    (b = true ->
     exists l h,
       arg_or (<["program_code" := PStr "print(2)"]> demo_args) "program_args" (PList [""])
       = PList l /\
       last (trace s')
       = Some (Spawn h ("env" :: "python2" :: "/home/u/.wishful/radio/fm.py" :: l))).
Proof.
  apply (reactivation_keeps_registration demo_env _ demo_failed_start "fm"
           (RadioProgramConf.mk (PStr "fm") (PList [""]) (PInt 1235) (PStr "print(1)")
              "/home/u/.wishful/radio/fm.py")).
  - vm_compute. reflexivity.
  - vm_compute. reflexivity.
  - vm_compute. reflexivity.
  - vm_compute. reflexivity.
Defined.

(** ** Pausing and resuming *)

(** What a pause does once there is a channel. *)
Lemma pause_connected_spec env (s : GnuRadioModule) (proxy : ServerProxy) :
  gr_state s = RUNNING \/ gr_state s = PAUSED ->
  ctrl_socket s = Some proxy ->
  let s0 := logged INFO "Pausing radio program" s in
  let t1 := (trace s ++ [Call proxy "stop" []])%list in
  let t2 := (t1 ++ [Call proxy "wait" []])%list in
  set_inactive env (gr_exec_name s) true s
  = match xmlrpc env (trace s) proxy "stop" [] with
    | Failure e => Raised e (with_trace t1 s0)
    | Reply _ =>
        match xmlrpc env t1 proxy "wait" [] with
        | Failure e => Raised e (with_trace t2 s0)
        | Reply _ => Ok tt (with_state PAUSED (with_trace t2 s0))
        end
    end.
Proof.
  intros Hs Hc s0 t1 t2. subst s0 t1 t2.
  unfold set_inactive. unfold_helpers.
  rewrite decide_False by (intros H; by apply H).
  rewrite decide_True by done. fields. rewrite Hc.
  destruct (xmlrpc env (trace s) proxy "stop" []) eqn:E1; fields; rewrite ?E1; [|reflexivity].
  fields. rewrite Hc.
  destruct (xmlrpc env _ proxy "wait" []) eqn:E2; fields; rewrite ?E2; reflexivity.
Qed.

(** X14.  With a channel, pausing the active program sends [stop] and then
    [wait].  When both are answered the state becomes [PAUSED], and the
    process is not killed, the registration and the files are kept and the
    channel stays.  When [stop] or [wait] fails the exception reaches the
    caller and the state is not changed, although the requests made so far
    have been sent. *)
Theorem pause_sends_stop_then_wait env (s : GnuRadioModule) (proxy : ServerProxy) :
  gr_state s = RUNNING \/ gr_state s = PAUSED ->
  ctrl_socket s = Some proxy ->
  let r := set_inactive env (gr_exec_name s) true s in
  let s' := final_state r in
  let t1 := (trace s ++ [Call proxy "stop" []])%list in
  let t2 := (t1 ++ [Call proxy "wait" []])%list in
  session (with_state (gr_state s) s') = session s /\ fs s' = fs s /\
  ((exists v1 v2,
       xmlrpc env (trace s) proxy "stop" [] = Reply v1 /\
       xmlrpc env t1 proxy "wait" [] = Reply v2 /\
       r = Ok tt s' /\ gr_state s' = PAUSED /\ trace s' = t2) \/
   (exists e,
       r = Raised e s' /\ gr_state s' = gr_state s /\
       ((xmlrpc env (trace s) proxy "stop" [] = Failure e /\ trace s' = t1) \/
        (xmlrpc env t1 proxy "wait" [] = Failure e /\ trace s' = t2)))).
Proof.
  intros Hs Hc r s' t1 t2. subst r s' t1 t2.
  rewrite (pause_connected_spec env s proxy Hs Hc). cbv zeta.
  destruct (xmlrpc env (trace s) proxy "stop" []) as [v1|e] eqn:E1; fields.
  - destruct (xmlrpc env _ proxy "wait" []) as [v2|e] eqn:E2; fields.
    + split; [done|]. split; [done|]. left. by exists v1, v2.
    + split; [done|]. split; [done|]. right. exists e. split; [done|]. split; [done|].
      right. done.
  - split; [done|]. split; [done|]. right. exists e. split; [done|]. split; [done|].
    left. done.
Qed.

Lemma demo_connected_state : gr_state demo_connected = RUNNING.
Proof. vm_compute. reflexivity. Qed.

Lemma demo_connected_channel :
  ctrl_socket demo_connected = Some {| sp_host := "localhost"; sp_port := 1235 |}.
Proof. vm_compute. reflexivity. Qed.

Lemma pause_sends_stop_then_wait_witness :
  let proxy := {| sp_host := "localhost"; sp_port := 1235 |} in
  let r := set_inactive demo_env (gr_exec_name demo_connected) true demo_connected in
  let s' := final_state r in
  let t1 := (trace demo_connected ++ [Call proxy "stop" []])%list in
  let t2 := (t1 ++ [Call proxy "wait" []])%list in
  session (with_state (gr_state demo_connected) s') = session demo_connected /\
  fs s' = fs demo_connected /\
  ((exists v1 v2,
       xmlrpc demo_env (trace demo_connected) proxy "stop" [] = Reply v1 /\
       xmlrpc demo_env t1 proxy "wait" [] = Reply v2 /\
       r = Ok tt s' /\ gr_state s' = PAUSED /\ trace s' = t2) \/
   (exists e,
       r = Raised e s' /\ gr_state s' = gr_state demo_connected /\
       ((xmlrpc demo_env (trace demo_connected) proxy "stop" [] = Failure e /\ trace s' = t1) \/
        (xmlrpc demo_env t1 proxy "wait" [] = Failure e /\ trace s' = t2)))).
Proof.
  apply (pause_sends_stop_then_wait demo_env demo_connected).
  - left. exact demo_connected_state.
  - exact demo_connected_channel.
Defined.

(** What a resume does. *)
Lemma resume_spec env (args : gmap string pyval) (s : GnuRadioModule) :
  gr_state s = PAUSED ->
  arg_or args "program_name" PNone = gr_exec_name s ->
  exists s', set_active env args s = Ok None s' /\
    gr_state s' = RUNNING /\
    trace s' = trace s /\ fs s' = fs s /\
    gr_radio_programs_conf s' = gr_radio_programs_conf s /\
    gr_exec_name s' = gr_exec_name s /\
    gr_process s' = gr_process s /\
    gr_process_io s' = gr_process_io s /\
    (forall p, ctrl_socket s = Some p -> ctrl_socket s' = Some p).
Proof.
  intros Hs Hn. unfold set_active. unfold_monad.
  rewrite Hs. rewrite decide_False by discriminate.
  rewrite decide_True by done.
  match goal with |- context [_init_proxy ?a ?b] =>
    destruct (init_proxy_frame a b) as (l & msg & u & -> & Hu & _) end.
  eexists. split; [reflexivity|]. fields. repeat split; done.
Qed.

(** X15.  In [PAUSED], [set_active] with the name of the paused program
    returns [None] and sets the state to [RUNNING], whatever else the
    arguments hold and whether or not a channel could be made.  It starts
    and kills no process, sends no request and touches no file or
    registration; a channel that exists is kept. *)
Theorem resume_only_reconnects env (args : gmap string pyval) (s : GnuRadioModule) :
  gr_state s = PAUSED ->
  arg_or args "program_name" PNone = gr_exec_name s ->
  exists s', set_active env args s = Ok None s' /\
    gr_state s' = RUNNING /\
    trace s' = trace s /\ fs s' = fs s /\
    gr_radio_programs_conf s' = gr_radio_programs_conf s /\
    gr_exec_name s' = gr_exec_name s /\
    gr_process s' = gr_process s /\
    (forall p, ctrl_socket s = Some p -> ctrl_socket s' = Some p).
Proof.
  intros Hs Hn. destruct (resume_spec env args s Hs Hn) as (s' & H). exists s'. tauto.
Qed.

Lemma resume_only_reconnects_witness :
  exists s', set_active demo_env (<["program_type" := PStr "exe"]> demo_args) demo_paused
             = Ok None s' /\
    gr_state s' = RUNNING /\
    trace s' = trace demo_paused /\ fs s' = fs demo_paused /\
    gr_radio_programs_conf s' = gr_radio_programs_conf demo_paused /\
    gr_exec_name s' = gr_exec_name demo_paused /\
    gr_process s' = gr_process demo_paused /\
    (forall p, ctrl_socket demo_paused = Some p -> ctrl_socket s' = Some p).
Proof.
  apply resume_only_reconnects.
  - vm_compute. reflexivity.
  - vm_compute. reflexivity.
Defined.

(** X16.  With a channel and an endpoint that answers [stop] and [wait],
    pausing the running program and activating it again leaves the state
    [RUNNING] with the same active name, the same process handle, the same
    channel and the same registrations; all that happened outside is the
    two requests. *)
Theorem pause_resume_round_trip env (args : gmap string pyval) (s : GnuRadioModule)
    (proxy : ServerProxy) v1 v2 :
  gr_state s = RUNNING ->
  ctrl_socket s = Some proxy ->
  arg_or args "program_name" PNone = gr_exec_name s ->
  xmlrpc env (trace s) proxy "stop" [] = Reply v1 ->
  xmlrpc env (trace s ++ [Call proxy "stop" []]) proxy "wait" [] = Reply v2 ->
  exists s1 s2,
    set_inactive env (gr_exec_name s) true s = Ok tt s1 /\
    gr_state s1 = PAUSED /\
    set_active env args s1 = Ok None s2 /\
    gr_state s2 = RUNNING /\
    gr_exec_name s2 = gr_exec_name s /\
    gr_process s2 = gr_process s /\
    ctrl_socket s2 = Some proxy /\
    gr_radio_programs_conf s2 = gr_radio_programs_conf s /\
    fs s2 = fs s /\
    trace s2 = (trace s ++ [Call proxy "stop" []; Call proxy "wait" []])%list.
Proof.
  intros Hs Hc Hn E1 E2.
  pose proof (pause_connected_spec env s proxy (or_introl Hs) Hc) as Hp.
  cbv zeta in Hp. rewrite E1, E2 in Hp.
  match type of Hp with _ = Ok tt ?x => set (s1 := x) in * end.
  destruct (resume_spec env args s1) as (s2 & E & H1 & H2 & H3 & H4 & H5 & H6 & H7 & H8);
    [reflexivity|exact Hn|].
  exists s1, s2. subst s1. fields. rewrite <- app_assoc in H2.
  repeat split; try done. by apply H8.
Qed.

Lemma pause_resume_round_trip_witness :
  let proxy := {| sp_host := "localhost"; sp_port := 1235 |} in
  exists s1 s2,
    set_inactive demo_env (gr_exec_name demo_connected) true demo_connected = Ok tt s1 /\
    gr_state s1 = PAUSED /\
    set_active demo_env demo_args s1 = Ok None s2 /\
    gr_state s2 = RUNNING /\
    gr_exec_name s2 = gr_exec_name demo_connected /\
    gr_process s2 = gr_process demo_connected /\
    ctrl_socket s2 = Some proxy /\
    gr_radio_programs_conf s2 = gr_radio_programs_conf demo_connected /\
    fs s2 = fs demo_connected /\
    trace s2 = (trace demo_connected ++ [Call proxy "stop" []; Call proxy "wait" []])%list.
Proof.
  apply (pause_resume_round_trip demo_env demo_args demo_connected _ PNone PNone).
  - exact demo_connected_state.
  - exact demo_connected_channel.
  - vm_compute. reflexivity.
  - reflexivity.
  - reflexivity.
Defined.



(** ** Activating and stopping *)

(** X17.  On a reachable object in [INACTIVE], activating a program whose
    name is not registered and then stopping it brings the registrations
    back to what they were: the stop returns, the state is [INACTIVE] again,
    the program's file is gone and no program is reported as running. *)
Theorem activate_stop_restores_registrations env (args : gmap string pyval)
    (s s1 : GnuRadioModule) (n : string) :
  reachable env s ->
  gr_state s = INACTIVE ->
  arg_or args "program_name" PNone = PStr n ->
  gr_radio_programs_conf s !! n = None ->
  set_active env args s = Ok (Some true) s1 ->
  exists s2,
    set_inactive env (PStr n) false s1 = Ok tt s2 /\
    gr_state s2 = INACTIVE /\
    gr_radio_programs_conf s2 = gr_radio_programs_conf s /\
    fs s2 !! path_join (gr_radio_programs_path s) (n ++ ".py") = None /\
    get_running_radio_program s2 = Ok PNone s2.
Proof.
  intros Hr Hs Hn Hfresh Ha.
  assert (Hr1 : reachable env s1).
  { replace s1 with (after env (Activate args) s); [by apply reachable_step|].
    unfold after, run. unfold_monad. by rewrite Ha. }
  pose proof (set_active_step env args s (reachable_inv _ _ Hr)) as (Hroot & _ & Hstep).
  destruct (set_active_from_inactive env args s Hs) as (_ & _ & H3).
  rewrite Ha in Hroot, Hstep, H3. fields.
  destruct H3 as [[_ H3]|(_ & Hst & n' & c & l & h & Hn' & _ & Hc & He & _)].
  { by destruct (H3 s1). }
  assert (n' = n) as -> by congruence.
  assert (Hconf : delete n (gr_radio_programs_conf s1) = gr_radio_programs_conf s).
  { destruct Hstep as [(E & _)|(_ & [E|[[n0 E]|(n0 & c0 & _ & _ & E)]])].
    - rewrite E in Hc. congruence.
    - rewrite E in Hc. congruence.
    - rewrite E in Hc. apply lookup_delete_Some in Hc as [_ Hc]. congruence.
    - rewrite E in Hc |- *. apply lookup_insert_Some in Hc as [[-> _]|[_ Hc]]; [|congruence].
      by apply delete_insert_id. }
  destruct (set_inactive_stop_spec env s1 n c (or_introl Hst) He Hc)
    as (s2 & E & H1 & H2 & H4 & H5 & H6 & H7 & H8 & H9).
  destruct (reachable_registry _ _ Hr1) as (_ & Hw & _).
  destruct (Hw n c Hc) as [_ Hp]. rewrite Hp, Hroot in H8.
  exists s2. split; [done|]. split; [done|]. split; [congruence|]. split; [done|].
  unfold get_running_radio_program. unfold_monad. rewrite H1. by rewrite decide_False.
Qed.

Lemma activate_stop_restores_registrations_witness :
  exists s2,
    set_inactive demo_env (PStr "fm") false demo_running = Ok tt s2 /\
    gr_state s2 = INACTIVE /\
    gr_radio_programs_conf s2 = gr_radio_programs_conf demo_init /\
    fs s2 !! path_join (gr_radio_programs_path demo_init) ("fm" ++ ".py") = None /\
    get_running_radio_program s2 = Ok PNone s2.
Proof.
  apply (activate_stop_restores_registrations demo_env demo_args demo_init demo_running "fm").
  - apply reachable_init.
  - reflexivity.
  - vm_compute. reflexivity.
  - reflexivity.
  - vm_compute. reflexivity.
Defined.

(** X18.  In [INACTIVE], a request whose name is not a string (the default
    [None] of a missing [program_name] included) never activates anything:
    for a ['grc'] or ['py'] program [set_active] raises, and no field of the
    object has changed. *)
Theorem activation_needs_string_name env (args : gmap string pyval) (s : GnuRadioModule) :
  gr_state s = INACTIVE ->
  (forall n, arg_or args "program_name" PNone <> PStr n) ->
  arg_or args "program_type" (PStr "grc") = PStr "grc" \/
  arg_or args "program_type" (PStr "grc") = PStr "py" ->
  exists e s', set_active env args s = Raised e s' /\ session s' = session s.
Proof.
  intros Hs Hn Ht. unfold set_active. unfold_monad. rewrite decide_True by done.
  destruct Ht as [Ht|Ht].
  - rewrite decide_True by done.
    destruct (_convert_grc_to_python _ _ _ _) as [v s1|e s1] eqn:E.
    + apply convert_ok_string_name in E as [n E]. by destruct (Hn n).
    + apply convert_frame in E. eauto.
  - rewrite decide_False by (rewrite Ht; discriminate).
    rewrite decide_False by (intros H; by apply H).
    unfold _add_program_to_repo, _build_radio_program_dict. unfold_helpers.
    destruct (arg_or args "program_name" PNone) as [|z|n|l] eqn:En; fields;
      try (eexists _, _; split; [reflexivity|]; reflexivity).
    by destruct (Hn n).
Qed.

Lemma activation_needs_string_name_witness :
  exists e s',
    set_active demo_env (<["program_type" := PStr "py"]> ∅) demo_init = Raised e s' /\
    session s' = session demo_init.
Proof.
  apply activation_needs_string_name.
  - reflexivity.
  - intros n. vm_compute. discriminate.
  - right. vm_compute. reflexivity.
Defined.

(** ** The channel of a batch *)




(** ** Registrations as Python objects *)

(** X20.  Two registrations of a reachable object compare equal exactly
    when they are the registration of the same name, whatever their
    arguments, port and code; a registration is never equal to a value that
    is not a registration; and hashing a registration raises [TypeError],
    because [__hash__] returns the name, which is a string. *)
Theorem registrations_equal_by_name env (s : GnuRadioModule) n1 n2 c1 c2 :
  reachable env s ->
  gr_radio_programs_conf s !! n1 = Some c1 ->
  gr_radio_programs_conf s !! n2 = Some c2 ->
  (RadioProgramConfMethods.__eq__ c1 (RadioProgramConfMethods.IsConf c2) = true <-> n1 = n2) /\
  (forall v, RadioProgramConfMethods.__eq__ c1 (RadioProgramConfMethods.NotConf v) = false) /\
  RadioProgramConfMethods.hash_raises c1 = Some TypeError.
Proof.
  intros Hr H1 H2. destruct (reachable_registry _ _ Hr) as (_ & Hw & _).
  destruct (Hw _ _ H1) as [N1 _]. destruct (Hw _ _ H2) as [N2 _].
  unfold RadioProgramConfMethods.__eq__, RadioProgramConfMethods.hash_raises,
    RadioProgramConfMethods.__hash__.
  rewrite N1, N2. split; [|done].
  case_decide as E.
  - split; [intros _; congruence|done].
  - split; [discriminate|]. intros ->. by destruct E.
Qed.

Lemma registrations_equal_by_name_witness :
  let c := RadioProgramConf.mk (PStr "fm") (PList [""]) (PInt 1235) (PStr "print(1)")
             "/home/u/.wishful/radio/fm.py" in
  (RadioProgramConfMethods.__eq__ c (RadioProgramConfMethods.IsConf c) = true <-> "fm" = "fm") /\
  (forall v, RadioProgramConfMethods.__eq__ c (RadioProgramConfMethods.NotConf v) = false) /\
  RadioProgramConfMethods.hash_raises c = Some TypeError.
Proof.
  apply (registrations_equal_by_name demo_env demo_running "fm" "fm").
  - exact demo_running_reachable.
  - vm_compute. reflexivity.
  - vm_compute. reflexivity.
Defined.

(** ** Activating a compiled program again *)

(** What a conversion that returns leaves behind. *)
Lemma convert_ok_spec env (name code v : pyval) (s s' : GnuRadioModule) :
  _convert_grc_to_python env name code s = Ok v s' ->
  exists n, name = PStr n /\
    fs s' !! path_join (gr_radio_programs_path s) (n ++ ".py") = None /\
    session s' = session s.
Proof.
  unfold _convert_grc_to_python. unfold_helpers. unfold session.
  crunch; intros H; try discriminate; injection H as <- <-; fields;
    eexists; (split; [reflexivity|]); (split; [apply lookup_delete_eq|]); reflexivity.
Qed.

(** X21.  On a reachable object in [INACTIVE], activating a ['grc'] program
    whose name is already registered loses the program's file: the
    conversion reads and removes the compiler's output, which is the very
    path of the registered file, and because the name is registered the
    file is not written again.  When [set_active] returns, the registration
    is still there, its file is not, and a process that was started was
    given that path. *)
Theorem grc_reactivation_loses_file env (args : gmap string pyval) (s s' : GnuRadioModule)
    (n : string) (c0 : RadioProgramConf.t) (b : bool) :
  reachable env s ->
  gr_state s = INACTIVE ->
  arg_or args "program_type" (PStr "grc") = PStr "grc" ->
  arg_or args "program_name" PNone = PStr n ->
  gr_radio_programs_conf s !! n = Some c0 ->
  set_active env args s = Ok (Some b) s' ->
  gr_radio_programs_conf s' !! n = Some c0 /\
  fs s' !! RadioProgramConf.path c0 = None /\
  (b = true ->
   exists l h, last (trace s')
               = Some (Spawn h ("env" :: "python2" :: RadioProgramConf.path c0 :: l))).
Proof.
  intros Hr Hs Ht Hn Hc Ha.
  destruct (reachable_registry _ _ Hr) as (_ & Hw & _).
  destruct (Hw n c0 Hc) as [_ Hp].
  unfold set_active in Ha. unfold_monad. rewrite decide_True in Ha by done.
  rewrite decide_True in Ha by done. rewrite Hn in Ha.
  destruct (_convert_grc_to_python _ _ _ _) as [v s1|e s1] eqn:E; [|discriminate].
  apply convert_ok_spec in E as (n' & [= <-] & Hgone & Hsess). fields.
  apply session_fields in Hsess. fields.
  destruct Hsess as (F1 & _ & _ & _ & _ & _ & _ & _ & _).
  unfold conf_contains in Ha. rewrite F1, Hc in Ha.
  rewrite bool_decide_eq_true_2 in Ha by eauto. cbn [negb] in Ha.
  match type of Ha with context [_exec_program env ?a ?b ?s0] =>
    destruct (exec_program_spec env a b s0) as (b' & s2 & E & Hconf & _ & _ & Hcase);
    pose proof (exec_program_fs env a b s0 (RadioProgramConf.path c0)) as Hfs;
    rewrite E in Hfs, Ha end.
  fields. injection Ha as -> ->.
  destruct (registered_path_not_log (gr_radio_programs_path s) n) as [P1 P2].
  rewrite <- Hp in P1, P2, Hgone.
  split; [by rewrite Hconf, F1|]. split; [by rewrite Hfs|].
  intros ->.
  destruct Hcase as [(? & _)|(_ & _ & n' & c' & l & h & [= <-] & _ & Hc' & _ & _ & Ht')];
    [discriminate|].
  rewrite F1, Hc in Hc'. injection Hc' as <-. by exists l, h.
Qed.

Lemma grc_reactivation_loses_file_witness :
  let s' := final_state (set_active demo_env_grcc demo_grc_args demo_grc_registered) in
  let c0 := RadioProgramConf.mk (PStr "fm") (PList [""]) (PInt 1235)
              (PStr "print('generated')") "/home/u/.wishful/radio/fm.py" in
  gr_radio_programs_conf s' !! "fm" = Some c0 /\
  fs s' !! RadioProgramConf.path c0 = None /\
  (true = true ->
   exists l h, last (trace s')
               = Some (Spawn h ("env" :: "python2" :: RadioProgramConf.path c0 :: l))).
Proof.
  apply (grc_reactivation_loses_file demo_env_grcc demo_grc_args demo_grc_registered _ "fm").
  - apply reachable_step, reachable_init.
  - vm_compute. reflexivity.
  - vm_compute. reflexivity.
  - vm_compute. reflexivity.
  - vm_compute. reflexivity.
  - vm_compute. reflexivity.
Defined.

Example grc_first_activation_demo :
  gr_state demo_grc_registered = INACTIVE /\
  fs demo_grc_registered !! "/home/u/.wishful/radio/fm.py" = Some "print('generated')".
Proof. vm_compute. done. Qed.
